(* ===== verification/_CoqProject ===== *)
-Q . S2P
Prelude.v
Node.v
Puppeteer.v
NetworkIdle.v
Launch.v
CaptureSpec.v
MockBackend.v
Screenshot.v
PuppeteerScreenshot.v
Navigation.v
Config.v
Refinement.v
Scenarios.v
MockRuns.v
