(* ===== verification/Prelude.v ===== *)
(** * A verification development of the nighty-docs screenshot scripts

    ** The program

    Two Node.js scripts take a URL and an output path from the command
    line, drive a headless browser through Puppeteer (launch, newPage,
    goto with [waitUntil: 'networkidle2'], a full-page screenshot, close)
    and exit:
    - src/website-screenshot/screenshot.js: output path optional (default
      [screenshot.png]), sandbox-disabling launch flags, no [try]: any
      rejection after the URL check is an unhandled rejection of the async
      function, and [browser.close()] is not reached;
    - src/example-scripts/webscrape/puppeteer_screenshot.js: both
      arguments required, default launch options, newPage/goto/screenshot
      in [try { } catch (err) { console.error(err.toString());
      process.exit(1); } finally { await browser.close(); }].
    The scripts share no code; they interact only with the Node runtime
    (argv, console, exit, promise rejections) and with the browser engine.

    ** Files, in dependency order

    - Prelude.v (this file): the JavaScript values the scripts use
      ([string | undefined] as [option string], ToBoolean [truthy], the
      narrowing [truthy_value] of [if (!v)], [||] with a string default,
      [Error.prototype.toString]), the [js] hint and [js_rw] rewrite
      databases, shared tactics and list lemmas.
    - Node.v: the runtime.  An async function body is a state and
      exception monad [node E A] over the process state (environment and
      error stream) whose outcome is [Normal], [Thrown] (a rejected await)
      or [Exited] ([process.exit]: ends everything, pending [finally]
      blocks included).  [try_catch_finally] follows the ECMAScript
      TryStatement; [run_async_main] turns the settled promise of the
      top-level async arrow into an exit code, per Node's
      [--unhandled-rejections] mode (throw by default from Node 15,
      warn before); [fatal] names the modes where an unhandled
      rejection ends the process with code 1 whatever handles are open.
      Only the first line of Node's report is modelled, and open handles
      are not tracked: in the non-fatal modes, a process whose browser is
      still open would not exit, which [run_async_main] does not
      represent, so every exit-code theorem after a rejection with a
      browser open assumes a [fatal] mode.
    - Puppeteer.v: the library surface the scripts call (option records,
      browser and page handles, the [call] log) and the typeclass
      [Backend], the interface between the scripts and any browser engine;
      every script theorem is proved against this interface.  Tactics
      [run_api] (follow given engine answers) and [case_api] (split on
      every possible answer).
    - NetworkIdle.v: what [page.goto] waits for.  A page's traffic is the
      number of connections in flight at each millisecond; [first_idle]
      scans it once, counting quiet samples in a row, and is proved equal
      to the declarative search [first_idle_ref] over every 500 ms window;
      [navigation_wait] adds the lifecycle events ([load],
      [domcontentloaded]), the [waitUntil] default and the 30000 ms
      default timeout with its TimeoutError.
    - Launch.v: what [puppeteer.launch] requires of the host
      ([host_env]: root or not, display or not): Chrome refuses to run
      as root with its sandbox on, and a window needs a display;
      [launch_refusal] is that check.
    - CaptureSpec.v: the spec's capture contract (section 4.1) as a step
      relation [cstep] with its invariant [contract_inv] (rule induction:
      a finished run released the browser exactly once iff it acquired
      it), the same contract as a function [contract_run] of the injected
      faults, their equivalence, and decidability.
    - MockBackend.v: the fault-injecting mock engine of the spec's tests
      (section 8), an instance of [Backend]: browsers with a lifecycle
      (Running, then Closed for good), pages, a file system as a gmap, a
      fresh-handle counter, the host it runs on (its launch applies
      [launch_refusal]); its invariant [mock_wf] holds in every
      reachable state.  Its [goto] waits as [navigation_wait] says, on
      the traffic each site of its network declares.
    - Screenshot.v, PuppeteerScreenshot.v: one Module per script, one
      definition per part of the source (argument reads, usage text,
      option objects, try, catch and finally blocks, main body, the
      process run);
      then the behaviour on every branch (usage error, success, each
      rejection) for every engine, and the safety theorem that
      [browser.close()] is only ever the last of the five calls; the
      bounds on exit code and calls; the narrowing of the arguments
      handed to goto and screenshot.
    - Navigation.v: the navigation of the two scripts ([networkidle2],
      default timeout): when it resolves (the declarative condition,
      through the equivalence of the scan with the reference search), and
      that a page whose traffic ends in time is always reached.
    - Config.v: what each script's launch options require of the host.
    - Refinement.v: each script's observation (stages called, exit code)
      against the contract: under a fatal rejection mode, a run is allowed
      by the contract exactly when newPage, goto and screenshot succeed;
      when they do, puppeteer_screenshot.js is the contract's run; the two
      scripts are observably equivalent; the command line round trip.
    - Scenarios.v: a run on every mock engine that serves the URL
      overwrites the output file with the full-page image (the spec's
      repeated-run property).
    - MockRuns.v: theorems over every state of the mock engine, proved
      with the mock's frame lemmas: under a fatal rejection mode, exit
      code 0 means the output file exists and the browser was released
      exactly once (the spec's section 8); as root,
      puppeteer_screenshot.js cannot launch.

    ** What the theorems show

    The spec promises that the browser is released on every exit path.
    Neither script does so: screenshot.js has no cleanup, and in
    puppeteer_screenshot.js the [catch] block calls [process.exit(1)],
    which terminates the process before the [finally] block runs
    ([puppeteer_screenshot_catch_skips_close]).  The refinement theorems
    say precisely where the scripts and the contract agree.  Both
    scripts inherit Puppeteer's 30000 ms navigation timeout, which the
    spec says does not exist: the navigation resolves only at a
    network-idle time before 30000 ms
    ([puppeteer_screenshot_navigation_resolves]).  As root, the usual
    user in a container, puppeteer_screenshot.js cannot start Chrome (its
    default options keep the sandbox on) and, the launch being outside
    its [try], ends as an unhandled rejection
    ([puppeteer_screenshot_root_launch_rejected]); screenshot.js passes
    [--no-sandbox] and starts anywhere.  Where the scripts do satisfy
    the spec, the theorems say so for every engine state: under a fatal
    rejection mode exit code 0 means the output file exists and the
    browser was released once.

    ** Bounds and what is not modelled

    No fuel is needed: the scripts are straight-line programs, the
    monad is total, and the idle scan is structural recursion over the
    finite traffic.  The 500 silent samples appended after a page's
    traffic are enough for the scan to fire: the last 500 ms are a quiet
    window ([window_quiet_silence]), so the event fires less than 500 ms
    after the traffic ends.  Times are [nat] milliseconds; 30000 is
    large for unary numbers, so the theorems keep
    [default_navigation_timeout] folded and the fixtures are decided by
    [vm_compute].  Rendering (layout, painting, image encoding) is not
    modelled: an image is the page content tagged full-page or viewport;
    the [Backend] class leaves the engine's answers free, and the mock
    stands for it in tests.  Puppeteer's lifecycle watcher is modelled
    for the main frame only (sub-frames are not, and the timeout wins a
    tie with the event at the same millisecond).  A navigation that
    times out leaves the mock's page as it was.  Node's event loop
    and open handles, signals, the kill of the browser process at exit
    and the stack lines of Node's report are not modelled: release means
    the call [browser.close()] (when the process ends, Puppeteer kills
    the Chrome it launched anyway; what the scripts skip is the graceful
    close the spec asks for), and only the first line of a report is
    kept; Puppeteer's launch failures keep their multi-line message.  Of
    the host, only what [launch] checks is modelled (root, display);
    [--disable-setuid-sandbox], memory and the Chrome binary's presence
    are not.  The
    [require] lines, including the unused [require('fs')], have no
    behaviour.

    ** Not modelled, and why

    - The stack lines of Node's report of an uncaught error: they depend
      on the V8 call stack and the installed files of Puppeteer, which
      the scripts' source does not determine; the first line, which the
      source does determine ([err.toString()]), is modelled.
    - A kill of the process (spec section 5): it is an event from
      outside, at any await.  The model runs a script to completion; what
      a kill at an await leaves is a prefix of the call log, and the
      ordering theorems ([close] only ever the last of the five calls)
      already say that a kill before the last call never releases the
      browser.
    - The browser process kill at exit, the event loop and rendering
      belong to Node and Chrome, not to this repository; the Puppeteer
      library and the browser engine are modelled only as far as the
      scripts observe them (the [Backend] interface, the navigation wait,
      the launch check). *)

From stdpp Require Import base list strings.
From Stdlib Require Import ZArith Lia.

Declare Scope js_scope.
Delimit Scope js_scope with js.
Local Open Scope string_scope.

(** ** JavaScript values the scripts manipulate

    [process.argv] entries are strings; indexing past the end yields
    [undefined].  A value of type [string | undefined] is [option string]. *)

Abbreviation jsstr := (option string).

(** ECMAScript ToBoolean on [string | undefined]: [undefined] and [""] are
    falsy, every other string is truthy. *)
Definition truthy (v : jsstr) : bool :=
  match v with
  | None => false
  | Some s => negb (String.eqb s "")
  end.

(** The narrowing that [if (!v) { ... }] performs: after the test, the
    value is a non-empty string. *)
Definition truthy_value (v : jsstr) : option string :=
  match v with
  | Some s => if String.eqb s "" then None else Some s
  | None => None
  end.

(** [a || b] where [b] is a string literal: [a] when truthy, else [b]. *)
Definition js_or (a : jsstr) (b : string) : string :=
  match truthy_value a with
  | Some s => s
  | None => b
  end.

Notation "a || b" := (js_or a b) : js_scope.
Notation "! v" := (negb (truthy v)) (at level 35, right associativity) : js_scope.

(** Error objects: [name] and [message] may each be [undefined]. *)
Record js_error := JsError { err_name : jsstr; err_message : jsstr }.

#[export] Instance js_error_eq_dec : EqDecision js_error.
Proof. solve_decision. Defined.

(** ECMAScript [Error.prototype.toString] (ES2023, 20.5.3.4). *)
Definition error_to_string (e : js_error) : string :=
  let name := match err_name e with Some n => n | None => "Error" end in
  let msg := match err_message e with Some m => m | None => "" end in
  if String.eqb name "" then msg
  else if String.eqb msg "" then name
  else name ++ ": " ++ msg.

(** ** Tactics and hint database shared by the development *)

Create HintDb js discriminated.
Create Rewrite HintDb js_rw.

Ltac invc H := inversion H; subst; clear H.

(** Case analysis on a string test [s =? t] with the equation kept. *)
Ltac destruct_str_eqb :=
  match goal with
  | |- context [String.eqb ?s ?t] =>
      destruct (String.eqb_spec s t); subst
  end.

(** ** Lemmas on the JavaScript value layer *)

Lemma truthy_value_Some v s :
  truthy_value v = Some s <-> v = Some s /\ s <> "".
Proof.
  destruct v as [t|]; simpl; [destruct (String.eqb_spec t ""); subst|]; naive_solver.
Qed.

Lemma truthy_value_None v :
  truthy_value v = None <-> v = None \/ v = Some "".
Proof.
  destruct v as [t|]; simpl; [destruct (String.eqb_spec t ""); subst|]; naive_solver.
Qed.

Lemma truthy_truthy_value v :
  truthy v = match truthy_value v with Some _ => true | None => false end.
Proof. destruct v as [t|]; simpl; [destruct (String.eqb t ""); reflexivity|reflexivity]. Qed.

Lemma truthy_value_nonempty s : s <> "" -> truthy_value (Some s) = Some s.
Proof. intros H. apply truthy_value_Some. auto. Qed.

Lemma js_or_truthy a s b : truthy_value a = Some s -> js_or a b = s.
Proof. unfold js_or. intros ->. reflexivity. Qed.

Lemma js_or_falsy a b : truthy_value a = None -> js_or a b = b.
Proof. unfold js_or. intros ->. reflexivity. Qed.

Lemma js_or_nonempty a b : b <> "" -> js_or a b <> "".
Proof.
  unfold js_or. destruct (truthy_value a) eqn:E; [|done].
  apply truthy_value_Some in E. tauto.
Qed.

#[export] Hint Resolve truthy_value_nonempty js_or_nonempty : js.
#[export] Hint Rewrite js_or_truthy js_or_falsy using assumption : js_rw.

(** ** Generic list lemmas *)

Local Open Scope list_scope.

Lemma removelast_app_last {A} (l : list A) (x : A) :
  last l = Some x -> l = removelast l ++ [x].
Proof.
  induction l as [|y l IH]; [discriminate|].
  destruct l as [|z l]; cbn; [intros [= ->]; reflexivity|].
  intros H. cbn in IH. rewrite (IH H) at 1. reflexivity.
Qed.

Lemma last_app_singleton {A} (l : list A) (x : A) : last (l ++ [x]) = Some x.
Proof. induction l as [|y [|z l] IH]; cbn in *; auto. Qed.

Lemma removelast_app_singleton {A} (l : list A) (x : A) : removelast (l ++ [x]) = l.
Proof. induction l as [|y [|z l] IH]; cbn in *; auto. rewrite IH. reflexivity. Qed.

#[export] Hint Rewrite @last_app_singleton @removelast_app_singleton : js_rw.

(** Prove a decidable proposition on concrete data by evaluation. *)
Ltac by_compute := apply (bool_decide_unpack _); vm_compute; exact I.

(** The first element of [s, s+n) satisfying [f], as [find] on [seq]. *)
Lemma find_seq_Some (f : nat -> bool) s n t :
  find f (seq s n) = Some t <->
  s <= t < s + n /\ f t = true /\ forall t', s <= t' < t -> f t' = false.
Proof.
  revert s. induction n as [|n IH]; intros s; cbn; [split; [discriminate | lia]|].
  destruct (f s) eqn:Hs.
  - split; [intros [= <-]; split; [lia|]; split; [exact Hs | intros; lia]|].
    intros (? & Ht & Hmin). destruct (decide (t = s)) as [->|]; [reflexivity|].
    rewrite Hmin in Hs by lia. discriminate.
  - rewrite IH. split; intros (? & Ht & Hmin); (split; [|split; [exact Ht|]]).
    + lia.
    + intros t' ?. destruct (decide (t' = s)) as [->|]; [exact Hs | apply Hmin; lia].
    + destruct (decide (t = s)) as [->|]; [congruence | lia].
    + intros t' ?. apply Hmin. lia.
Qed.

Lemma find_seq_None (f : nat -> bool) s n :
  find f (seq s n) = None <-> forall t, s <= t < s + n -> f t = false.
Proof.
  revert s. induction n as [|n IH]; intros s; cbn; [split; [intros; lia | reflexivity]|].
  destruct (f s) eqn:Hs.
  - split; [discriminate|]. intros H. rewrite H in Hs by lia. discriminate.
  - rewrite IH. split; intros H t ?; [destruct (decide (t = s)) as [->|]; [exact Hs|]|]; apply H; lia.
Qed.
