(* ===== verification/Node.v ===== *)
(** * The Node.js runtime the scripts run on

    The body of an [async] function as a state and exception monad
    [node E A]: a computation on the process state [proc E] (the
    environment [E] the program talks to, plus the lines written to the
    error stream) that ends in one of three ways: it returns normally, it
    throws (an awaited promise rejected), or it called [process.exit], which
    terminates the process on the spot: nothing after it runs, not even a
    pending [finally] block.  [try_catch_finally] follows the ECMAScript
    TryStatement; [run_async_main] turns the settled promise of the
    top-level [(async () => { ... })()] into an exit code, following Node's
    [--unhandled-rejections] policy. *)

From stdpp Require Import base list strings.
From Stdlib Require Import ZArith.
From S2P Require Import Prelude.

Declare Scope node_scope.
Delimit Scope node_scope with node.

Section NodeMonad.
Context {E : Type}.

(** How a statement sequence completes. *)
Inductive outcome (A : Type) : Type :=
| Normal (a : A)
| Thrown (e : js_error)
| Exited (code : Z).

(** The process: the environment and the error stream (one entry per
    [console.error] line). *)
Record proc : Type := Proc { env : E; stderr : list string }.

Definition node (A : Type) : Type := proc -> outcome A * proc.

Definition ret {A} (a : A) : node A := fun p => (Normal A a, p).

Definition bind {A B} (c : node A) (k : A -> node B) : node B :=
  fun p =>
    match c p with
    | (Normal _ a, p') => k a p'
    | (Thrown _ e, p') => (Thrown B e, p')
    | (Exited _ n, p') => (Exited B n, p')
    end.

(** [throw e], and the rejection of an awaited promise. *)
Definition throw {A} (e : js_error) : node A := fun p => (Thrown A e, p).

(** [process.exit(code)]: never returns. *)
Definition process_exit {A} (code : Z) : node A := fun p => (Exited A code, p).

(** [console.error(msg)]. *)
Definition console_error (msg : string) : node unit :=
  fun p => (Normal unit tt, Proc (env p) (stderr p ++ [msg])).

(** [await op(...)] for an operation of the environment that settles
    with a value ([inr]) or a rejection ([inl]). *)
Definition await {A} (op : E -> (js_error + A) * E) : node A :=
  fun p =>
    match op (env p) with
    | (inr a, e') => (Normal A a, Proc e' (stderr p))
    | (inl err, e') => (Thrown A err, Proc e' (stderr p))
    end.

(** The [finally] clause: it runs after a normal or throwing
    completion; its own abrupt completion overrides the earlier one. *)
Definition finally_ {A} (o : outcome A) (fin : node unit) : node A :=
  fun p =>
    match o with
    | Exited _ n => (Exited A n, p)
    | _ =>
        match fin p with
        | (Normal _ _, p') => (o, p')
        | (Thrown _ e, p') => (Thrown A e, p')
        | (Exited _ n, p') => (Exited A n, p')
        end
    end.

(** [try { body } catch (err) { handler } finally { fin }]. *)
Definition try_catch_finally {A} (body : node A) (handler : js_error -> node A)
    (fin : node unit) : node A :=
  fun p =>
    match body p with
    | (Thrown _ e, p1) => let '(o, p2) := handler e p1 in finally_ o fin p2
    | (o, p1) => finally_ o fin p1
    end.

End NodeMonad.

Arguments outcome : clear implicits.
Arguments Normal {A} a.
Arguments Thrown {A} e.
Arguments Exited {A} code.
Arguments proc : clear implicits.
Arguments Proc {E} env stderr.
Arguments node : clear implicits.

Notation "x <- c ;; k" := (bind c (fun x => k))
  (at level 100, c at next level, right associativity) : node_scope.
Notation "c ;; k" := (bind c (fun _ => k))
  (at level 100, right associativity) : node_scope.

(** [process.argv] of [node <script> <args>...]: the path of the Node
    binary, the script, then the command-line arguments. *)
Definition process_argv (script : string) (args : list string) : list string :=
  "node"%string :: script :: args.

(** ** The end of the process

    Node's [--unhandled-rejections] modes.  [UR_throw] is the default from
    Node 15 on; before, the default only warned. *)
Inductive unhandled_rejections :=
| UR_throw | UR_strict | UR_warn | UR_warn_with_error_code | UR_none.

Definition default_unhandled_rejections (node_major : nat) : unhandled_rejections :=
  if (15 <=? node_major)%nat then UR_throw else UR_warn.

(** The modes in which a rejection nobody handles ends the process with
    exit code 1, as an uncaught exception does: whatever handles are
    still open (a browser, its connection), the process terminates. *)
Definition fatal (mode : unhandled_rejections) : bool :=
  match mode with
  | UR_throw | UR_strict | UR_warn_with_error_code => true
  | UR_warn | UR_none => false
  end.

(** What a rejection nobody handles does to the process: the line written
    to the error stream (the first line of the report) and the exit code. *)
Definition unhandled_rejection {E} (mode : unhandled_rejections) (e : js_error)
    (p : proc E) : Z * proc E :=
  let report := Proc (env p) (stderr p ++ [error_to_string e]) in
  match mode with
  | UR_throw | UR_strict | UR_warn_with_error_code => (1%Z, report)
  | UR_warn => (0%Z, report)
  | UR_none => (0%Z, p)
  end.

(** [(async () => { main })()] as the whole program: the exit code of
    the process and its final state.  A normal completion ends the process
    with code 0 once the event loop is empty. *)
Definition run_async_main {E} (mode : unhandled_rejections) (main : node E unit)
    (p : proc E) : Z * proc E :=
  match main p with
  | (Normal _, p') => (0%Z, p')
  | (Exited n, p') => (n, p')
  | (Thrown e, p') => unhandled_rejection mode e p'
  end.

(** ** Laws of the runtime monad *)

Section Laws.
Context {E : Type}.

Lemma bind_ret_l {A B} (a : A) (k : A -> node E B) p : bind (ret a) k p = k a p.
Proof. reflexivity. Qed.

Lemma bind_ret_r {A} (c : node E A) p : bind c ret p = c p.
Proof. unfold bind, ret. destruct (c p) as [[] ?]; reflexivity. Qed.

Lemma bind_assoc {A B C} (c : node E A) (k : A -> node E B) (h : B -> node E C) p :
  bind (bind c k) h p = bind c (fun a => bind (k a) h) p.
Proof. unfold bind. destruct (c p) as [[] ?]; reflexivity. Qed.

(** [process.exit] in the [try] block: neither [catch] nor [finally]
    runs. *)
Lemma try_exit_skips_finally {A} (body : node E A) h fin p n p1 :
  body p = (Exited n, p1) -> try_catch_finally body h fin p = (Exited n, p1).
Proof. unfold try_catch_finally. intros ->. reflexivity. Qed.

(** [process.exit] in the [catch] block: the [finally] block does not
    run. *)
Lemma catch_exit_skips_finally {A} (body : node E A) h fin p e p1 n p2 :
  body p = (Thrown e, p1) -> h e p1 = (Exited n, p2) ->
  try_catch_finally body h fin p = (Exited n, p2).
Proof. unfold try_catch_finally. intros -> ->. reflexivity. Qed.

(** A normal completion of the [try] block runs the [finally] block,
    whose own rejection wins. *)
Lemma try_normal_runs_finally {A} (body : node E A) h fin p a p1 u p2 :
  body p = (Normal a, p1) -> fin p1 = (Normal u, p2) ->
  try_catch_finally body h fin p = (Normal a, p2).
Proof. unfold try_catch_finally, finally_. intros -> ->. reflexivity. Qed.
End Laws.
