(* ===== verification/Puppeteer.v ===== *)
(** * The browser-automation library the scripts call (Puppeteer)

    Only the surface the scripts use: [puppeteer.launch(options)],
    [browser.newPage()], [page.goto(url, options)],
    [page.screenshot(options)] and [browser.close()], with the option
    objects they pass.  What the browser does is left to an instance of
    the [Backend] class: the scripts' theorems hold for every instance, and
    MockBackend.v provides one.  Every call a script issues is appended to
    the session's call log, the observation the spec's tests make with a
    mock backend. *)

From stdpp Require Import base list strings.
From S2P Require Import Prelude Node.

Local Open Scope string_scope.

(** ** Option objects *)

(** [headless: true | false | 'new' | 'shell']. *)
Inductive headless_mode := HeadlessBool (b : bool) | HeadlessNew | HeadlessShell.

(** [LaunchOptions]: an omitted field is [None]. *)
Record launch_options := LaunchOptions {
  headless : option headless_mode;
  args : list string
}.

(** [puppeteer.launch()] with no argument. *)
Definition default_launch_options : launch_options := LaunchOptions None [].

(** [PuppeteerLifeCycleEvent]. *)
Inductive wait_until := WU_load | WU_domcontentloaded | WU_networkidle0 | WU_networkidle2.

(** [GoToOptions]. *)
Record goto_options := GotoOptions {
  waitUntil : option wait_until;
  timeout : option nat
}.

(** [ScreenshotOptions]. *)
Record screenshot_options := ScreenshotOptions {
  path : option string;
  fullPage : option bool
}.

(** Handles of the objects the library returns. *)
Abbreviation browser := nat.
Abbreviation page := nat.

(** One call of the library, as the call log records it. *)
Inductive call :=
| Launch (o : launch_options)
| NewPage (b : browser)
| Goto (p : page) (url : string) (o : goto_options)
| Screenshot (p : page) (o : screenshot_options)
| Close (b : browser).

#[export] Instance headless_mode_eq_dec : EqDecision headless_mode.
Proof. solve_decision. Defined.
#[export] Instance launch_options_eq_dec : EqDecision launch_options.
Proof. solve_decision. Defined.
#[export] Instance wait_until_eq_dec : EqDecision wait_until.
Proof. solve_decision. Defined.
#[export] Instance goto_options_eq_dec : EqDecision goto_options.
Proof. solve_decision. Defined.
#[export] Instance screenshot_options_eq_dec : EqDecision screenshot_options.
Proof. solve_decision. Defined.
#[export] Instance call_eq_dec : EqDecision call.
Proof. solve_decision. Defined.

(** ** The interface a browser engine offers to the scripts

    Each operation settles with a value ([inr]) or rejects with an error
    ([inl]), and changes the engine's state. *)
Class Backend (B : Type) := {
  be_launch : launch_options -> B -> (js_error + browser) * B;
  be_newPage : browser -> B -> (js_error + page) * B;
  be_goto : page -> string -> goto_options -> B -> (js_error + unit) * B;
  be_screenshot : page -> screenshot_options -> B -> (js_error + unit) * B;
  be_close : browser -> B -> (js_error + unit) * B
}.

(** The environment of a script: the engine and the log of calls. *)
Record session (B : Type) := Session { backend : B; calls : list call }.
Arguments Session {B} backend calls.
Arguments backend {B} s.
Arguments calls {B} s.

Section Api.
Context {B : Type} `{Backend B}.

(** Issue call [c], performed by the engine's operation [op]. *)
Definition issue {A} (c : call) (op : B -> (js_error + A) * B)
    (s : session B) : (js_error + A) * session B :=
  let '(r, b') := op (backend s) in (r, Session b' (calls s ++ [c])).

Definition puppeteer_launch (o : launch_options) : node (session B) browser :=
  await (issue (Launch o) (be_launch o)).
Definition browser_newPage (b : browser) : node (session B) page :=
  await (issue (NewPage b) (be_newPage b)).
Definition page_goto (p : page) (url : string) (o : goto_options)
    : node (session B) unit :=
  await (issue (Goto p url o) (be_goto p url o)).
Definition page_screenshot (p : page) (o : screenshot_options)
    : node (session B) unit :=
  await (issue (Screenshot p o) (be_screenshot p o)).
Definition browser_close (b : browser) : node (session B) unit :=
  await (issue (Close b) (be_close b)).
End Api.

(** ** Observations on the call log *)

Definition is_close (c : call) : bool := match c with Close _ => true | _ => false end.
Definition is_launch (c : call) : bool := match c with Launch _ => true | _ => false end.

(** How many times [browser.close()] was called. *)
Definition close_count (cs : list call) : nat := length (filter is_close cs).
Definition launch_count (cs : list call) : nat := length (filter is_launch cs).

(** ** Running a script against the engine's answers

    [api_red] unfolds the monad and the library calls and reduces;
    [run_api] then rewrites with the hypotheses that fix the engine's
    answers, one call at a time; [case_api] instead splits on every answer
    the engine may give. *)
Ltac api_step := cbv beta iota zeta delta [fst snd env stderr backend calls]; cbn [app].

Ltac api_red :=
  unfold run_async_main, unhandled_rejection, try_catch_finally, finally_,
    puppeteer_launch, browser_newPage, page_goto, page_screenshot,
    browser_close, console_error, process_exit, throw, bind, ret, await, issue;
  api_step.

Ltac run_api :=
  api_red;
  repeat (match goal with
          | H : ?x = (_, _) |- context [?x] => rewrite H
          end; api_step).

Ltac case_answer x :=
  let r := fresh "r" in let b' := fresh "b" in
  destruct x as [[r|r] b'] eqn:?.

Ltac case_api :=
  api_red;
  repeat (match goal with
          | |- context [be_launch ?o ?b] => case_answer (be_launch o b)
          | |- context [be_newPage ?o ?b] => case_answer (be_newPage o b)
          | |- context [be_goto ?p ?u ?o ?b] => case_answer (be_goto p u o b)
          | |- context [be_screenshot ?p ?o ?b] => case_answer (be_screenshot p o b)
          | |- context [be_close ?o ?b] => case_answer (be_close o b)
          end; api_step).

Lemma close_count_app cs1 cs2 :
  close_count (cs1 ++ cs2) = close_count cs1 + close_count cs2.
Proof. unfold close_count. rewrite filter_app, length_app. reflexivity. Qed.

Lemma launch_count_app cs1 cs2 :
  launch_count (cs1 ++ cs2) = launch_count cs1 + launch_count cs2.
Proof. unfold launch_count. rewrite filter_app, length_app. reflexivity. Qed.

Lemma close_count_cons c cs :
  close_count (c :: cs) = (if is_close c then 1 else 0) + close_count cs.
Proof. unfold close_count. cbn. destruct (is_close c); reflexivity. Qed.

Lemma close_count_nil : close_count [] = 0.
Proof. reflexivity. Qed.

#[export] Hint Rewrite close_count_app launch_count_app close_count_cons close_count_nil : js_rw.

(** The five steps of a capture, as the spec names them: acquire
    (launch), open (newPage), navigate (goto), capture (screenshot),
    release (close). *)
Inductive stage := SLaunch | SNewPage | SGoto | SScreenshot | SClose.

#[export] Instance stage_eq_dec : EqDecision stage.
Proof. solve_decision. Defined.

Definition stage_of (c : call) : stage :=
  match c with
  | Launch _ => SLaunch
  | NewPage _ => SNewPage
  | Goto _ _ _ => SGoto
  | Screenshot _ _ => SScreenshot
  | Close _ => SClose
  end.
