(* ===== verification/NetworkIdle.v ===== *)
(** * The navigation wait of page.goto (Puppeteer's lifecycle watcher)

    Both scripts call [page.goto(url, { waitUntil: 'networkidle2' })] and
    so inherit Puppeteer's default navigation timeout of 30000 ms.  The
    spec describes the wait condition as "no more than a small number of
    in-flight network connections for a short quiet period": for
    [networkidle2] at most 2 connections during 500 ms, for
    [networkidle0] none.

    A page's traffic is the number of connections in flight at each
    millisecond since the navigation started ([inflight]), followed by
    silence once the page has loaded everything.  [first_idle] finds the
    end of the first quiet window in one pass, counting the quiet samples
    in a row; [first_idle_ref] is the reference that checks every window
    in full; they are equal ([first_idle_ref_eq]).  [navigation_wait] is
    what [page.goto] makes of it: the time the awaited lifecycle event
    fires, or a TimeoutError when that is not before the timeout. *)

From stdpp Require Import base list strings pretty.
From Stdlib Require Import Lia.
From S2P Require Import Prelude Puppeteer.

Local Open Scope list_scope.

Section Window.
(** At most [limit] connections in flight for [quiet] milliseconds. *)
Variables (limit quiet : nat).

Definition quiet_sample (c : nat) : bool := c <=? limit.

(** Reference: the [quiet] samples ending at [t] are all quiet. *)
Definition window_quiet (tr : list nat) (t : nat) : bool :=
  (quiet <=? S t) && (t <? length tr) &&
  forallb quiet_sample (drop (S t - quiet) (take (S t) tr)).

Definition first_idle_ref (tr : list nat) : option nat :=
  find (window_quiet tr) (seq 0 (length tr)).

(** One pass: [run] is the number of quiet samples just seen, [t] the
    current millisecond. *)
Fixpoint idle_scan (run t : nat) (tr : list nat) : option nat :=
  match tr with
  | [] => None
  | c :: tr' =>
      let run' := if quiet_sample c then S run else 0 in
      if quiet <=? run' then Some t else idle_scan run' (S t) tr'
  end.

Definition first_idle (tr : list nat) : option nat := idle_scan 0 0 tr.

(** The counter after a prefix of the traffic. *)
Definition run_step (r c : nat) : nat := if quiet_sample c then S r else 0.
Definition run_after (p : list nat) : nat := fold_left run_step p 0.

Lemma run_after_snoc p c : run_after (p ++ [c]) = run_step (run_after p) c.
Proof. unfold run_after. rewrite fold_left_app. reflexivity. Qed.

(** The counter reaches [k] exactly when the last [k] samples are quiet. *)
Lemma run_after_spec p k :
  k <= run_after p <->
  k <= length p /\ Forall (fun c => quiet_sample c = true) (drop (length p - k) p).
Proof.
  revert k. induction p as [|c p IH] using rev_ind; intros k.
  - cbn. split; [intros Hk; split; [lia | constructor] | lia].
  - rewrite run_after_snoc, length_app. cbn [length]. unfold run_step.
    destruct k as [|k].
    + rewrite drop_ge by (rewrite ?length_app; cbn; lia). split; [split; [lia|constructor] | lia].
    + replace (length p + 1 - S k) with (length p - k) by lia.
      rewrite drop_app_le by lia. rewrite Forall_app, Forall_singleton.
      destruct (quiet_sample c) eqn:Hc.
      * rewrite <- Nat.succ_le_mono, IH. intuition lia.
      * split; [lia | intros (_ & _ & ?); discriminate].
Qed.

Lemma window_quiet_run tr t :
  window_quiet tr t = true <-> t < length tr /\ quiet <= run_after (take (S t) tr).
Proof.
  unfold window_quiet. rewrite !andb_true_iff, Nat.leb_le, Nat.ltb_lt, forallb_forall.
  split.
  - intros [[Hq Ht] Hw]. split; [exact Ht|]. apply run_after_spec.
    rewrite length_take, Nat.min_l by lia. split; [lia|].
    apply Forall_forall. intros x Hx. apply Hw, list_elem_of_In, Hx.
  - intros [Ht Hr]. apply run_after_spec in Hr as [Hl Hw].
    rewrite length_take, Nat.min_l in Hl, Hw by lia.
    split; [lia|]. intros x Hx. rewrite Forall_forall in Hw. apply Hw, list_elem_of_In, Hx.
Qed.

Lemma idle_scan_find pre rest :
  idle_scan (run_after pre) (length pre) rest =
  find (window_quiet (pre ++ rest)) (seq (length pre) (length rest)).
Proof.
  revert pre. induction rest as [|c rest IH]; intros pre; [reflexivity|].
  cbn [idle_scan length seq find].
  fold (run_step (run_after pre) c). rewrite <- run_after_snoc.
  assert (Hw : window_quiet (pre ++ c :: rest) (length pre) =
               (quiet <=? run_after (pre ++ [c]))).
  { apply eq_iff_eq_true. rewrite window_quiet_run, Nat.leb_le.
    replace (take (S (length pre)) (pre ++ c :: rest)) with (pre ++ [c]).
    - rewrite length_app. cbn. intuition lia.
    - rewrite take_app, take_ge by lia.
      replace (S (length pre) - length pre) with 1 by lia. reflexivity. }
  rewrite Hw. destruct (quiet <=? run_after (pre ++ [c])); [reflexivity|].
  replace (pre ++ c :: rest) with ((pre ++ [c]) ++ rest) by (rewrite <- app_assoc; reflexivity).
  replace (S (length pre)) with (length (pre ++ [c])) by (rewrite ?length_app; cbn; lia).
  apply IH.
Qed.

(** The one-pass scan computes the reference search. *)
Theorem first_idle_ref_eq tr : first_idle tr = first_idle_ref tr.
Proof. exact (idle_scan_find [] tr). Qed.

(** The scan fires at the end of the first quiet window. *)
Lemma first_idle_Some tr t :
  first_idle tr = Some t <->
  window_quiet tr t = true /\ forall t', t' < t -> window_quiet tr t' = false.
Proof.
  rewrite first_idle_ref_eq. unfold first_idle_ref. rewrite find_seq_Some.
  split; [intros (_ & Hq & Hmin); split; [exact Hq | intros; apply Hmin; lia]|].
  intros [Hq Hmin]. pose proof Hq as Hl. apply window_quiet_run in Hl as [Hl _].
  split; [lia|]. split; [exact Hq | intros; apply Hmin; lia].
Qed.

(** A quiet window ending at [t] makes the scan fire at [t] or before. *)
Lemma first_idle_exists tr t :
  window_quiet tr t = true -> exists t0, t0 <= t /\ first_idle tr = Some t0.
Proof.
  intros Hq. destruct (first_idle tr) as [t0|] eqn:Hf.
  - exists t0. split; [|reflexivity]. apply first_idle_Some in Hf as [_ Hmin].
    destruct (decide (t0 <= t)); [lia|]. rewrite Hmin in Hq by lia. discriminate.
  - rewrite first_idle_ref_eq in Hf. unfold first_idle_ref in Hf.
    pose proof Hq as Hl. apply window_quiet_run in Hl as [Hl _].
    rewrite find_seq_None in Hf. rewrite Hf in Hq by lia. discriminate.
Qed.

(** [quiet] silent samples at the end of the traffic are a quiet window. *)
Lemma window_quiet_silence tr :
  0 < quiet -> window_quiet (tr ++ replicate quiet 0) (length tr + quiet - 1) = true.
Proof.
  intros Hq. apply window_quiet_run. rewrite length_app, length_replicate.
  split; [lia|]. rewrite take_ge by (rewrite length_app, length_replicate; lia).
  apply run_after_spec. rewrite length_app, length_replicate. split; [lia|].
  replace (length tr + quiet - quiet) with (length tr) by lia.
  rewrite drop_app_length. apply Forall_forall. intros x Hx.
  apply elem_of_replicate_inv in Hx as ->. reflexivity.
Qed.

End Window.

(** ** What page.goto waits for *)

(** [networkidle0]/[networkidle2]: the quiet period and its limit. *)
Definition networkidle_quiet_ms : nat := 500.

Definition networkidle_limit (w : wait_until) : option nat :=
  match w with
  | WU_networkidle0 => Some 0
  | WU_networkidle2 => Some 2
  | WU_load | WU_domcontentloaded => None
  end.

(** Puppeteer's default navigation timeout, in milliseconds. *)
Definition default_navigation_timeout : nat := 30000.

(** What a navigation to a page shows the lifecycle watcher: when the
    DOMContentLoaded and load events fire, and the connections in flight
    at each millisecond until the page's traffic ends. *)
Record page_load := PageLoad {
  dom_content_loaded_at : nat;
  load_at : nat;
  inflight : list nat
}.

(** The traffic, followed by the silence after it. *)
Definition traffic (pl : page_load) : list nat :=
  inflight pl ++ replicate networkidle_quiet_ms 0.

(** The time the network-idle event with this limit fires; the silence
    at the end makes the scan always fire ([idle_time_fires]). *)
Definition idle_time (limit : nat) (pl : page_load) : nat :=
  default (length (traffic pl)) (first_idle limit networkidle_quiet_ms (traffic pl)).

(** The time the awaited lifecycle event fires. *)
Definition lifecycle_time (w : wait_until) (pl : page_load) : nat :=
  match networkidle_limit w with
  | Some limit => idle_time limit pl
  | None =>
      match w with
      | WU_domcontentloaded => dom_content_loaded_at pl
      | _ => load_at pl
      end
  end.

(** [TimeoutError: Navigation timeout of <ms> ms exceeded]. *)
Definition navigation_timeout_error (ms : nat) : js_error :=
  JsError (Some "TimeoutError")
    (Some ("Navigation timeout of " ++ pretty ms ++ " ms exceeded"))%string.

(** [page.goto]'s wait: [waitUntil] defaults to [load], [timeout] to
    30000 ms, and a timeout of 0 waits for ever.  The navigation settles
    with the time the event fires, or rejects when the timeout comes
    first. *)
Definition navigation_wait (o : goto_options) (pl : page_load) : js_error + nat :=
  let ms := default default_navigation_timeout (timeout o) in
  let t := lifecycle_time (default WU_load (waitUntil o)) pl in
  if (ms =? 0) || (t <? ms) then inr t else inl (navigation_timeout_error ms).

Arguments navigation_wait : simpl never.

(** The network-idle event always fires, at most [500 - 1] ms after the
    page's traffic ends. *)
Lemma idle_time_fires limit pl :
  first_idle limit networkidle_quiet_ms (traffic pl) = Some (idle_time limit pl) /\
  idle_time limit pl < length (inflight pl) + networkidle_quiet_ms.
Proof.
  destruct (first_idle_exists limit networkidle_quiet_ms (traffic pl)
              (length (inflight pl) + networkidle_quiet_ms - 1)) as (t & Ht & Hf).
  - apply window_quiet_silence. cbv. lia.
  - unfold idle_time. rewrite Hf. cbn. split; [reflexivity|]. unfold networkidle_quiet_ms in *. lia.
Qed.

(** The time the network-idle event fires, described without the scan:
    the end of the first window of 500 ms with at most [limit]
    connections in flight. *)
Lemma idle_time_spec limit pl t :
  idle_time limit pl = t <->
  window_quiet limit networkidle_quiet_ms (traffic pl) t = true /\
  forall t', t' < t -> window_quiet limit networkidle_quiet_ms (traffic pl) t' = false.
Proof.
  rewrite <- first_idle_Some. destruct (idle_time_fires limit pl) as [Hf _].
  rewrite Hf. split; [intros ->; reflexivity | intros [= ->]; reflexivity].
Qed.

Lemma navigation_wait_inv o pl r :
  navigation_wait o pl = r <->
  let ms := default default_navigation_timeout (timeout o) in
  let t := lifecycle_time (default WU_load (waitUntil o)) pl in
  (r = inr t /\ (ms = 0 \/ t < ms)) \/ (r = inl (navigation_timeout_error ms) /\ ms <> 0 /\ ms <= t).
Proof.
  unfold navigation_wait. cbn zeta.
  destruct (_ =? 0) eqn:H0; [apply Nat.eqb_eq in H0 | apply Nat.eqb_neq in H0];
  cbn [orb]; [|destruct (_ <? _) eqn:Hlt; [apply Nat.ltb_lt in Hlt | apply Nat.ltb_ge in Hlt]];
  (split; [intros <-| intros [[-> ?]|[-> ?]]]); (reflexivity || naive_solver lia).
Qed.

(** [page.goto(url, { waitUntil: 'networkidle2' })], the call of both
    scripts, unfolded. *)
Lemma navigation_wait_networkidle2 pl :
  navigation_wait (GotoOptions (Some WU_networkidle2) None) pl =
  if idle_time 2 pl <? default_navigation_timeout then inr (idle_time 2 pl)
  else inl (navigation_timeout_error default_navigation_timeout).
Proof. reflexivity. Qed.

Lemma navigation_wait_networkidle2_inr pl t :
  navigation_wait (GotoOptions (Some WU_networkidle2) None) pl = inr t <->
  idle_time 2 pl = t /\ t < default_navigation_timeout.
Proof.
  rewrite navigation_wait_networkidle2.
  destruct (_ <? _) eqn:Hlt; [apply Nat.ltb_lt in Hlt | apply Nat.ltb_ge in Hlt];
    split; [intros [= <-] | intros [<- ?] | discriminate | intros [<- ?]]; auto with lia.
Qed.

