(* ===== verification/Launch.v ===== *)
(** * What [puppeteer.launch] requires of the host

    The two scripts differ in their launch options: screenshot.js passes
    [headless: 'new'] and the flags [--no-sandbox] and
    [--disable-setuid-sandbox]; puppeteer_screenshot.js passes nothing,
    so Chrome runs headless (Puppeteer's default) with its sandbox on.
    Chrome refuses to start as root with its sandbox on, and a browser
    with a window needs a display.  [launch_refusal] is that check: the
    error the launch rejects with on a host, if any.  The
    [--disable-setuid-sandbox] flag only turns off the setuid helper and
    plays no part in it. *)

From stdpp Require Import base list strings.
From S2P Require Import Prelude Puppeteer.

Local Open Scope string_scope.

(** The host the browser process starts on. *)
Record host_env := HostEnv { as_root : bool; has_display : bool }.

(** A desktop session of an ordinary user, and a container, whose
    processes run as root without a display. *)
Definition desktop_host : host_env := HostEnv false true.
Definition container_host : host_env := HostEnv true false.

(** [headless]: omitted, [true], ['new'] and ['shell'] all run without a
    window; [false] opens one. *)
Definition runs_headless (o : launch_options) : bool :=
  match headless o with
  | Some (HeadlessBool b) => b
  | Some HeadlessNew | Some HeadlessShell | None => true
  end.

(** Chrome's sandbox is on unless [--no-sandbox] is among the flags. *)
Definition sandboxed (o : launch_options) : bool :=
  negb (bool_decide ("--no-sandbox" ∈ args o)).

(** The report Puppeteer rejects with when Chrome exits at start: the
    first line, Chrome's own log line (its process id and time stamp
    vary), and the pointer to the troubleshooting page. *)
Definition launch_failure (chrome_log : string) : js_error :=
  JsError (Some "Error")
    (Some ("Failed to launch the browser process!
" ++ chrome_log ++ "


TROUBLESHOOTING: https://pptr.dev/troubleshooting
")).

Definition err_root_sandbox : js_error :=
  launch_failure "[0101/000000.000000:ERROR:zygote_host_impl_linux.cc(100)] Running as root without --no-sandbox is not supported. See https://crbug.com/638180.".

Definition err_no_display : js_error :=
  launch_failure "[0101/000000.000000:ERROR:ozone_platform_x11.cc(240)] Missing X server or $DISPLAY".

(** The rejection of [puppeteer.launch(o)] on host [h], if any. *)
Definition launch_refusal (o : launch_options) (h : host_env) : option js_error :=
  if sandboxed o && as_root h then Some err_root_sandbox
  else if negb (runs_headless o) && negb (has_display h) then Some err_no_display
  else None.

(** A headless browser without its sandbox starts on every host. *)
Lemma launch_refusal_unsandboxed_headless o h :
  sandboxed o = false -> runs_headless o = true -> launch_refusal o h = None.
Proof. unfold launch_refusal. intros -> ->. reflexivity. Qed.

(** A headless browser with its sandbox starts exactly when the host is
    not root. *)
Lemma launch_refusal_sandboxed_headless o h :
  sandboxed o = true -> runs_headless o = true ->
  launch_refusal o h = if as_root h then Some err_root_sandbox else None.
Proof. unfold launch_refusal. intros -> ->. destruct (as_root h); reflexivity. Qed.
