(* ===== verification/CaptureSpec.v ===== *)
(** * The capture contract of the spec (section 4.1) and the scripts against it

    [cstep] is the contract as a state machine: validate the request,
    acquire a browser, open a page, navigate, capture, then release the
    browser on every path that acquired it; each step may fail.  The state
    records the phase, the log of stages performed and whether the browser
    is held.  [contract_inv] is its invariant (proved by rule induction):
    the browser is held exactly in the middle phases, and a finished run
    released it exactly once when it acquired it.  [contract_run] is the
    same contract as a function of the faults the engine injects, and is
    equivalent to the relation; the relation is decidable.  Refinement.v
    compares each script with it. *)

From stdpp Require Import base list strings sets.
From Stdlib Require Import ZArith.
From S2P Require Import Prelude Node Puppeteer.

Local Open Scope list_scope.

Inductive phase :=
| PValidate | PAcquire | POpen | PNavigate | PCapture
| PRelease (code : Z) | PDone (code : Z).

Record cstate := CState { cphase : phase; clog : list stage; held : bool }.

Section Contract.
(** Whether the request passes validation (URL and output present). *)
Variable valid : bool.

Inductive cstep : cstate -> cstate -> Prop :=
| c_usage : valid = false ->
    cstep (CState PValidate [] false) (CState (PDone 1) [] false)
| c_valid : valid = true ->
    cstep (CState PValidate [] false) (CState PAcquire [] false)
| c_acquire_ok : cstep (CState PAcquire [] false) (CState POpen [SLaunch] true)
| c_acquire_fail : cstep (CState PAcquire [] false) (CState (PDone 1) [SLaunch] false)
| c_open_ok l : cstep (CState POpen l true) (CState PNavigate (l ++ [SNewPage]) true)
| c_open_fail l : cstep (CState POpen l true) (CState (PRelease 1) (l ++ [SNewPage]) true)
| c_navigate_ok l : cstep (CState PNavigate l true) (CState PCapture (l ++ [SGoto]) true)
| c_navigate_fail l :
    cstep (CState PNavigate l true) (CState (PRelease 1) (l ++ [SGoto]) true)
| c_capture_ok l :
    cstep (CState PCapture l true) (CState (PRelease 0) (l ++ [SScreenshot]) true)
| c_capture_fail l :
    cstep (CState PCapture l true) (CState (PRelease 1) (l ++ [SScreenshot]) true)
| c_release_ok c l :
    cstep (CState (PRelease c) l true) (CState (PDone c) (l ++ [SClose]) false)
| c_release_fail c l :
    cstep (CState (PRelease c) l true) (CState (PDone 1) (l ++ [SClose]) false).

Inductive star : cstate -> cstate -> Prop :=
| star_refl s : star s s
| star_step s1 s2 s3 : cstep s1 s2 -> star s2 s3 -> star s1 s3.

Definition contract_init : cstate := CState PValidate [] false.

(** The contract allows a run that ends with exit [code] after the
    stages [l]. *)
Definition contract_allows (l : list stage) (code : Z) : Prop :=
  star contract_init (CState (PDone code) l false).
End Contract.

Arguments contract_init : simpl never.

(** The prefix of the capture sequence performed before phase [ph]. *)
Definition performed (ph : phase) : list stage :=
  match ph with
  | PValidate | PAcquire => []
  | POpen => [SLaunch]
  | PNavigate => [SLaunch; SNewPage]
  | PCapture => [SLaunch; SNewPage; SGoto]
  | PRelease _ | PDone _ => []
  end.

(** The logs with which the browser can be released: the acquisition
    succeeded and at least one later stage was attempted. *)
Definition release_logs : list (list stage) :=
  [[SLaunch; SNewPage]; [SLaunch; SNewPage; SGoto]; [SLaunch; SNewPage; SGoto; SScreenshot]].

Definition full_capture : list stage := [SLaunch; SNewPage; SGoto; SScreenshot].

(** The invariant: the browser is held exactly between a successful
    acquisition and its release; while held, the log is the stages so
    far; a finished run either stopped before acquiring (usage error, or
    the acquisition failed: code 1) or released the browser exactly once,
    as its last stage; code 0 only after a full capture. *)
Definition contract_inv (valid : bool) (s : cstate) : Prop :=
  match cphase s with
  | PValidate => clog s = [] /\ held s = false
  | PAcquire => clog s = [] /\ held s = false /\ valid = true
  | POpen | PNavigate | PCapture =>
      clog s = performed (cphase s) /\ held s = true /\ valid = true
  | PRelease c =>
      held s = true /\ valid = true /\ clog s ∈ release_logs /\
      (c = 0%Z \/ c = 1%Z) /\ (c = 0%Z -> clog s = full_capture)
  | PDone c =>
      held s = false /\ (c = 0%Z \/ c = 1%Z) /\
      ((clog s = [] /\ valid = false /\ c = 1%Z) \/
       (clog s = [SLaunch] /\ valid = true /\ c = 1%Z) \/
       (valid = true /\ last (clog s) = Some SClose /\ removelast (clog s) ∈ release_logs /\
        (c = 0%Z -> removelast (clog s) = full_capture)))
  end.

Lemma cstep_inv valid s s' : cstep valid s s' -> contract_inv valid s -> contract_inv valid s'.
Proof.
  unfold contract_inv, release_logs, full_capture.
  intros Hs; destruct Hs; cbn; intros Hi; destruct_and?; subst;
    repeat rewrite elem_of_cons in *; try rewrite elem_of_nil in *;
    try destruct_or?; subst; cbn; split_and?; try done; auto;
    try (intros; discriminate);
    right; right; cbn; split_and?; auto; set_solver.
Qed.

Lemma star_inv valid s s' : star valid s s' -> contract_inv valid s -> contract_inv valid s'.
Proof. induction 1; eauto using cstep_inv. Qed.

Lemma contract_inv_init valid : contract_inv valid contract_init.
Proof. unfold contract_inv, contract_init. cbn. auto. Qed.

Lemma contract_allows_inv valid l c :
  contract_allows valid l c -> contract_inv valid (CState (PDone c) l false).
Proof. intros H. eapply star_inv; [exact H | apply contract_inv_init]. Qed.

(** Build a path of the contract to a given final state, choosing each
    step by backtracking. *)
Ltac walk :=
  (apply star_refl) +
  (eapply star_step;
   [ (apply c_usage; reflexivity) + (apply c_valid; reflexivity) +
     apply c_acquire_ok + apply c_acquire_fail + apply c_open_ok + apply c_open_fail +
     apply c_navigate_ok + apply c_navigate_fail + apply c_capture_ok +
     apply c_capture_fail + apply c_release_ok + apply c_release_fail
   | walk ]).

(** ** The contract as a function of the faults the engine injects

    [first_fail] is the first of launch/newPage/goto/screenshot that
    fails ([None]: none does); [release_fails] says whether the release
    fails. *)
Record fault := Fault { first_fail : option stage; release_fails : bool }.

Definition release (f : fault) (l : list stage) (c : Z) : list stage * Z :=
  (l ++ [SClose], if release_fails f then 1%Z else c).

Definition contract_run (valid : bool) (f : fault) : list stage * Z :=
  if negb valid then ([], 1%Z) else
  match first_fail f with
  | Some SLaunch => ([SLaunch], 1%Z)
  | Some SNewPage => release f [SLaunch; SNewPage] 1
  | Some SGoto => release f [SLaunch; SNewPage; SGoto] 1
  | Some SScreenshot => release f full_capture 1
  | Some SClose | None => release f full_capture 0
  end.

Lemma contract_run_allowed valid f :
  contract_allows valid (contract_run valid f).1 (contract_run valid f).2.
Proof.
  unfold contract_allows, contract_init.
  destruct valid, f as [[[]|] []]; cbn; walk.
Qed.

(** The step relation and the function describe the same runs. *)
Theorem contract_allows_iff_run valid l c :
  contract_allows valid l c <-> exists f, contract_run valid f = (l, c).
Proof.
  split; [|intros [f Hf]; pose proof (contract_run_allowed valid f) as Ha;
           rewrite Hf in Ha; exact Ha].
  intros H%contract_allows_inv. unfold contract_inv, release_logs, full_capture in H.
  cbn in H. destruct H as (_ & Hc & [(-> & -> & ->) | [(-> & -> & ->) | (-> & Hl & Hm & H0)]]).
  - exists (Fault None false). reflexivity.
  - exists (Fault (Some SLaunch) false). reflexivity.
  - rewrite (removelast_app_last l SClose Hl).
    repeat rewrite elem_of_cons in Hm; rewrite elem_of_nil in Hm.
    destruct Hm as [E | [E | [E | []]]]; rewrite E in *; destruct Hc as [-> | ->];
      try (specialize (H0 eq_refl); discriminate).
    + exists (Fault (Some SNewPage) false). reflexivity.
    + exists (Fault (Some SGoto) false). reflexivity.
    + exists (Fault None false). reflexivity.
    + exists (Fault (Some SScreenshot) false). reflexivity.
Qed.

(** The faults worth distinguishing: every first failure, with and
    without a failing release. *)
Definition all_faults : list fault :=
  f ← [None; Some SLaunch; Some SNewPage; Some SGoto; Some SScreenshot];
  r ← [false; true];
  [Fault f r].

Lemma contract_run_all_faults valid f :
  exists f', f' ∈ all_faults /\ contract_run valid f' = contract_run valid f.
Proof.
  destruct f as [[[]|] r]; [| | | | exists (Fault None r) | exists (Fault None r)];
    [exists (Fault (Some SLaunch) r) | exists (Fault (Some SNewPage) r)
    | exists (Fault (Some SGoto) r) | exists (Fault (Some SScreenshot) r) | |];
    (split; [destruct r; cbn; set_solver | reflexivity]).
Qed.

Lemma contract_allows_elem valid l c :
  contract_allows valid l c <-> (l, c) ∈ contract_run valid <$> all_faults.
Proof.
  rewrite contract_allows_iff_run, list_elem_of_fmap. split.
  - intros [f Hf]. destruct (contract_run_all_faults valid f) as (f' & Hf' & Heq).
    exists f'. rewrite Heq, Hf. auto.
  - intros (f & Heq & _). eauto.
Qed.

#[export] Instance contract_allows_dec valid l c : Decision (contract_allows valid l c).
Proof.
  refine (cast_if (decide ((l, c) ∈ contract_run valid <$> all_faults)));
    rewrite contract_allows_elem; assumption.
Defined.

(** What the contract guarantees of every finished run: a run that
    acquired the browser released it exactly once, as its last stage, and
    exit code 0 means the whole capture succeeded and the browser was
    released. *)
Theorem contract_releases_once valid l c :
  contract_allows valid l c ->
  (l = [] \/ l = [SLaunch] \/ (last l = Some SClose /\ SClose ∉ removelast l)) /\
  (c = 0%Z -> l = full_capture ++ [SClose]).
Proof.
  intros H%contract_allows_inv. unfold contract_inv, release_logs in H. cbn in H.
  destruct H as (_ & _ & [(-> & _ & ->) | [(-> & _ & ->) | (_ & Hl & Hm & H0)]]);
    [split; [auto | discriminate] .. |].
  split.
  - right; right. split; [done|]. repeat rewrite elem_of_cons in Hm.
    rewrite elem_of_nil in Hm. destruct Hm as [E | [E | [E | []]]]; rewrite E; set_solver.
  - intros ->. rewrite (removelast_app_last l SClose Hl), H0 by reflexivity. reflexivity.
Qed.

Lemma contract_releases_once_witness :
  ([SLaunch; SNewPage; SGoto; SClose] = [] \/ [SLaunch; SNewPage; SGoto; SClose] = [SLaunch] \/
   (last [SLaunch; SNewPage; SGoto; SClose] = Some SClose /\
    SClose ∉ removelast [SLaunch; SNewPage; SGoto; SClose])) /\
  (1%Z = 0%Z -> [SLaunch; SNewPage; SGoto; SClose] = full_capture ++ [SClose]).
Proof. apply (contract_releases_once true). by_compute. Defined.
