(* ===== verification/MockBackend.v ===== *)
(** * A fault-injecting browser engine (the mock backend of the spec's tests)

    The spec checks the scripts "via a mock backend", one "that injects a
    failure at each stage".  [mock] is such an engine: it keeps the
    browsers it launched with their status (a small state machine: a
    browser is [Running] until [close], then [Closed] for good; [Running]
    records only that [browser.close()] was not called, since at the end
    of the process Puppeteer kills the Chrome it launched), the pages
    with their owner and the content they loaded, the file system the
    screenshots are written to, and a fresh-handle counter; [fail_stage] names
    the one stage it makes fail, and [site] is the network (for each URL,
    what it renders and how its traffic goes while it loads, [None] when it
    cannot be resolved), and [host] the machine it runs on, whose
    requirements [launch] checks ([launch_refusal]).  [goto] waits as
    Puppeteer does
    ([navigation_wait] of NetworkIdle.v) and rejects with a TimeoutError
    when the awaited event comes too late.  Its operations are an
    instance of [Backend]; [mock_wf] is its invariant, preserved by every
    operation. *)

From stdpp Require Import base list strings gmap.
From Stdlib Require Import ZArith.
From S2P Require Import Prelude Node Puppeteer NetworkIdle Launch.

Local Open Scope string_scope.

Inductive bstatus := Running | Closed.

#[export] Instance bstatus_eq_dec : EqDecision bstatus.
Proof. solve_decision. Defined.

(** What a URL serves: the content it renders and how it loads. *)
Record site_page := SitePage { content : string; loading : page_load }.

Record mock := Mock {
  fail_stage : option stage;
  site : string -> option site_page;
  host : host_env;
  browsers : gmap nat bstatus;
  pages : gmap nat (browser * option string);
  files : gmap string string;
  next_id : nat
}.

(** A mock on a desktop host with nothing launched and an empty file
    system. *)
Definition mock_init (f : option stage) (net : string -> option site_page) : mock :=
  Mock f net desktop_host ∅ ∅ ∅ 0.

(** ** The errors the engine rejects with *)

Definition err_launch : js_error :=
  JsError (Some "Error") (Some "Failed to launch the browser process!").
Definition err_closed : js_error :=
  JsError (Some "Error") (Some "Protocol error: Connection closed.").
(** The injected navigation fault: the default timeout expires. *)
Definition err_timeout : js_error := navigation_timeout_error default_navigation_timeout.
Definition err_unresolved (url : string) : js_error :=
  JsError (Some "Error") (Some ("net::ERR_NAME_NOT_RESOLVED at " ++ url)).
Definition err_write (p : string) : js_error :=
  JsError (Some "Error") (Some ("ENOENT: no such file or directory, open '" ++ p ++ "'")).

(** The image of a page: the whole scrollable content or the viewport. *)
Definition render (content : string) (full : bool) : string :=
  (if full then "full:" else "viewport:") ++ content.

(** ** Operations *)

Definition injected (m : mock) (s : stage) : bool := bool_decide (fail_stage m = Some s).

Definition mock_launch (o : launch_options) (m : mock) : (js_error + browser) * mock :=
  if injected m SLaunch then (inl err_launch, m)
  else match launch_refusal o (host m) with
       | Some e => (inl e, m)
       | None =>
           (inr (next_id m),
            Mock (fail_stage m) (site m) (host m) (<[next_id m := Running]> (browsers m))
                 (pages m) (files m) (S (next_id m)))
       end.

(** The browser a live page belongs to, when that browser is running. *)
Definition live_page (m : mock) (p : page) : option (browser * option string) :=
  match pages m !! p with
  | Some (b, c) => if bool_decide (browsers m !! b = Some Running) then Some (b, c) else None
  | None => None
  end.

Definition mock_newPage (b : browser) (m : mock) : (js_error + page) * mock :=
  if injected m SNewPage then (inl err_closed, m)
  else if bool_decide (browsers m !! b = Some Running) then
    (inr (next_id m),
     Mock (fail_stage m) (site m) (host m) (browsers m) (<[next_id m := (b, None)]> (pages m))
          (files m) (S (next_id m)))
  else (inl err_closed, m).

Definition mock_goto (p : page) (url : string) (o : goto_options) (m : mock)
    : (js_error + unit) * mock :=
  if injected m SGoto then (inl err_timeout, m)
  else match live_page m p with
       | None => (inl err_closed, m)
       | Some (b, _) =>
           match site m url with
           | None => (inl (err_unresolved url), m)
           | Some sp =>
               match navigation_wait o (loading sp) with
               | inl e => (inl e, m)
               | inr _ =>
                   (inr tt, Mock (fail_stage m) (site m) (host m) (browsers m)
                                 (<[p := (b, Some (content sp))]> (pages m)) (files m) (next_id m))
               end
           end
       end.

Definition mock_screenshot (p : page) (o : screenshot_options) (m : mock)
    : (js_error + unit) * mock :=
  match live_page m p with
  | None => (inl err_closed, m)
  | Some (_, c) =>
      if injected m SScreenshot then (inl (err_write (default "" (path o))), m)
      else
        let img := render (default "" c) (default false (fullPage o)) in
        match path o with
        | None => (inr tt, m)
        | Some f =>
            (inr tt, Mock (fail_stage m) (site m) (host m) (browsers m) (pages m)
                          (<[f := img]> (files m)) (next_id m))
        end
  end.

Definition mock_close (b : browser) (m : mock) : (js_error + unit) * mock :=
  if injected m SClose then (inl err_closed, m)
  else match browsers m !! b with
       | Some Running =>
           (inr tt, Mock (fail_stage m) (site m) (host m) (<[b := Closed]> (browsers m)) (pages m)
                         (files m) (next_id m))
       | _ => (inr tt, m)
       end.

#[export] Instance mock_backend : Backend mock := {
  be_launch := mock_launch;
  be_newPage := mock_newPage;
  be_goto := mock_goto;
  be_screenshot := mock_screenshot;
  be_close := mock_close
}.

(** ** The engine as a state machine *)

Inductive mock_step : mock -> mock -> Prop :=
| ms_launch o m r m' : mock_launch o m = (r, m') -> mock_step m m'
| ms_newPage b m r m' : mock_newPage b m = (r, m') -> mock_step m m'
| ms_goto p u o m r m' : mock_goto p u o m = (r, m') -> mock_step m m'
| ms_screenshot p o m r m' : mock_screenshot p o m = (r, m') -> mock_step m m'
| ms_close b m r m' : mock_close b m = (r, m') -> mock_step m m'.

(** Well-formedness: every handle in use is below the counter, and every
    page belongs to a browser the engine launched. *)
Definition mock_wf (m : mock) : Prop :=
  (forall b st, browsers m !! b = Some st -> b < next_id m) /\
  (forall p b c, pages m !! p = Some (b, c) -> p < next_id m /\ is_Some (browsers m !! b)).

Lemma live_page_Some m p b c :
  live_page m p = Some (b, c) -> pages m !! p = Some (b, c) /\ browsers m !! b = Some Running.
Proof.
  unfold live_page. destruct (pages m !! p) as [[b' c']|]; [|discriminate].
  case_bool_decide; [intros [= -> ->]; auto | discriminate].
Qed.

(** Unfold one operation of the mock and split on its tests. *)
Ltac mock_cases :=
  repeat first
    [ progress cbn [fail_stage site host browsers pages files next_id] in *
    | match goal with
      | H : (if ?c then _ else _) = _ |- _ => destruct c eqn:?
      | H : (match ?x with _ => _ end) = _ |- _ =>
          lazymatch x with
          | live_page _ _ => let E := fresh "E" in destruct x as [[? ?]|] eqn:E;
                             [apply live_page_Some in E as [? ?]|]
          | _ => destruct x eqn:?
          end
      | H : (inl _, _) = (inr _, _) |- _ => discriminate H
      | H : (inr _, _) = (inl _, _) |- _ => discriminate H
      | H : (_, _) = (_, _) |- _ => injection H as <- <-
      | H : bool_decide _ = true |- _ => apply bool_decide_eq_true in H
      end ].

Lemma mock_step_wf m m' : mock_step m m' -> mock_wf m -> mock_wf m'.
Proof.
  intros Hs [Hb Hp].
  destruct Hs as [o m r m' E|b m r m' E|p u o m r m' E|p o m r m' E|b m r m' E];
    unfold mock_launch, mock_newPage, mock_goto, mock_screenshot, mock_close in E;
    mock_cases; try (split; assumption);
    (split; [intros b' st | intros p' b' c']); cbn; rewrite ?lookup_insert;
    repeat case_decide; intros Hx; simplify_eq;
    try (apply Hb in Hx; lia); try (apply Hp in Hx as [? ?]);
    rewrite ?lookup_insert; repeat case_decide; subst; eauto with lia.
Qed.

Lemma mock_init_wf f net : mock_wf (mock_init f net).
Proof. split; cbn; intros *; rewrite lookup_empty; discriminate. Qed.

(** Every state the engine reaches from a fresh start is well formed. *)
Theorem mock_reachable_wf f net m :
  rtc mock_step (mock_init f net) m -> mock_wf m.
Proof.
  intros Hr. pose proof (mock_init_wf f net) as Hw.
  induction Hr; eauto using mock_step_wf.
Qed.

(** A handle the engine returns for a new browser was never used before. *)
Lemma mock_launch_fresh o m b m' :
  mock_wf m -> mock_launch o m = (inr b, m') ->
  browsers m !! b = None /\ browsers m' !! b = Some Running.
Proof.
  intros [Hb _] E. unfold mock_launch in E. mock_cases. split.
  - destruct (browsers m !! next_id m) eqn:Hn; [apply Hb in Hn; lia | done].
  - apply lookup_insert_eq.
Qed.

(** The browser lifecycle: a closed browser stays closed. *)
Theorem mock_closed_stays_closed m m' b :
  mock_wf m -> mock_step m m' ->
  browsers m !! b = Some Closed -> browsers m' !! b = Some Closed.
Proof.
  intros [Hb _] Hs Hc.
  destruct Hs as [o m r m' E|b' m r m' E|p u o m r m' E|p o m r m' E|b' m r m' E];
    unfold mock_launch, mock_newPage, mock_goto, mock_screenshot, mock_close in E;
    mock_cases; cbn; try assumption; rewrite lookup_insert; case_decide; subst;
    try assumption; [apply Hb in Hc; lia | congruence].
Qed.

Lemma mock_close_files b0 m r m' : mock_close b0 m = (r, m') -> files m' = files m.
Proof. unfold mock_close. intros E. mock_cases; reflexivity. Qed.

(** A screenshot that succeeds with a path has written that file. *)
Lemma mock_screenshot_writes p f full m u m' :
  mock_screenshot p (ScreenshotOptions (Some f) full) m = (inr u, m') -> is_Some (files m' !! f).
Proof. unfold mock_screenshot. intros E. mock_cases; cbn in *; simplify_eq; cbn; rewrite lookup_insert_eq; eauto. Qed.

(** ** Test fixtures: a network where one site resolves *)

(** example.com: DOMContentLoaded at 120 ms, load at 340 ms, five
    connections in flight for 300 ms, then one for 500 ms. *)
Definition example_load : page_load :=
  PageLoad 120 340 (replicate 300 5 ++ replicate 500 1).

Definition example_site (u : string) : option site_page :=
  if String.eqb u "https://example.com" then Some (SitePage "Example Domain" example_load)
  else None.

Definition example_mock (f : option stage) : mock := mock_init f example_site.

(** The same network, seen from a container: root, no display. *)
Definition container_mock (f : option stage) : mock :=
  Mock f example_site container_host ∅ ∅ ∅ 0.

(** ** Witnesses *)

Definition launched_mock : mock :=
  snd (mock_launch default_launch_options (example_mock None)).
Definition closed_mock : mock := snd (mock_close 0 launched_mock).

Lemma closed_mock_wf : mock_wf closed_mock.
Proof.
  eapply (mock_step_wf launched_mock); [eapply (ms_close 0); reflexivity|].
  eapply (mock_step_wf (example_mock None)); [eapply (ms_launch default_launch_options); reflexivity|].
  apply mock_init_wf.
Qed.

Lemma mock_reachable_wf_witness : mock_wf closed_mock.
Proof.
  apply (mock_reachable_wf None example_site).
  eapply rtc_l; [eapply (ms_launch default_launch_options); reflexivity|].
  eapply rtc_l; [eapply (ms_close 0); reflexivity|]. apply rtc_refl.
Defined.

Lemma mock_launch_fresh_witness :
  browsers (example_mock None) !! 0 = None /\ browsers launched_mock !! 0 = Some Running.
Proof. apply (mock_launch_fresh default_launch_options); [apply mock_init_wf | reflexivity]. Defined.

Lemma mock_closed_stays_closed_witness :
  browsers (snd (mock_newPage 0 closed_mock)) !! 0 = Some Closed.
Proof.
  apply (mock_closed_stays_closed closed_mock).
  - apply closed_mock_wf.
  - eapply (ms_newPage 0). reflexivity.
  - reflexivity.
Defined.
