(* ===== verification/Screenshot.v ===== *)
(** * src/website-screenshot/screenshot.js

    The script reads the URL from [process.argv[2]] and the output path
    from [process.argv[3]] (default ["screenshot.png"]), exits with a usage
    message when the URL is missing, then launches a headless browser with
    the sandbox disabled, opens a page, navigates with
    [waitUntil: 'networkidle2'], takes a full-page screenshot and closes
    the browser.  No [try]: a rejection of any awaited call leaves the
    async function as an unhandled rejection, and [browser.close()] is not
    called.  Module [Screenshot] holds the model and its theorems, which
    hold for every [Backend]. *)

From stdpp Require Import base list strings.
From Stdlib Require Import ZArith.
From S2P Require Import Prelude Node Puppeteer MockBackend.

Local Open Scope string_scope.

Local Open Scope node_scope.
Local Open Scope js_scope.

Module Screenshot.

(** [const url = process.argv[2];] *)
Definition url (argv : list string) : jsstr := argv !! 2.

(** [const output = process.argv[3] || 'screenshot.png';] *)
Definition output (argv : list string) : string := (argv !! 3) || "screenshot.png".

Definition usage : string := "Usage: node screenshot.js <url> [output]".

(** [{ headless: 'new', args: ['--no-sandbox', '--disable-setuid-sandbox'] }] *)
Definition launch_opts : launch_options :=
  LaunchOptions (Some HeadlessNew) ["--no-sandbox"; "--disable-setuid-sandbox"].

(** [{ waitUntil: 'networkidle2' }] *)
Definition goto_opts : goto_options := GotoOptions (Some WU_networkidle2) None.

(** [{ path: output, fullPage: true }] *)
Definition screenshot_opts (out : string) : screenshot_options :=
  ScreenshotOptions (Some out) (Some true).

Section Script.
Context {B : Type} `{Backend B}.

(** [if (!url) { console.error(usage); process.exit(1); }]: the block
    the guard runs. *)
Definition usage_exit : node (session B) unit :=
  console_error usage ;;
  process_exit 1.

(** The body of the async arrow function.  After [if (!url)] the URL
    is a non-empty string [u]. *)
Definition main (argv : list string) : node (session B) unit :=
  let out := output argv in
  match truthy_value (url argv) with
  | None => usage_exit
  | Some u =>
      browser <- puppeteer_launch launch_opts ;;
      page <- browser_newPage browser ;;
      page_goto page u goto_opts ;;
      page_screenshot page (screenshot_opts out) ;;
      browser_close browser
  end.

(** The process: a fresh call log, an empty error stream. *)
Definition run (mode : unhandled_rejections) (argv : list string) (b : B)
    : Z * proc (session B) :=
  run_async_main mode (main argv) (Proc (Session b []) []).
End Script.

End Screenshot.

(** Unfold the whole script down to the library calls. *)
Ltac unfold_screenshot := unfold Screenshot.run, Screenshot.main, Screenshot.usage_exit.

(** ** Behaviour of the script on every branch, for every engine *)
Module ScreenshotRuns.
Import Screenshot.

Section Runs.
Context {B : Type} `{Backend B}.
Variables (mode : unhandled_rejections) (argv : list string) (b0 : B).

(** C13: When the URL argument is missing or empty, screenshot.js prints
    its usage line, exits 1 and makes no call to the browser library. *)
Theorem screenshot_usage :
  truthy_value (url argv) = None ->
  run mode argv b0 = (1%Z, Proc (Session b0 []) [usage]).
Proof. intros Hu. unfold run, main, usage_exit. rewrite Hu. run_api. reflexivity. Qed.

Variables (u : string) (br : browser) (pg : page) (b1 b2 b3 b4 b5 : B).
Hypothesis Hurl : truthy_value (url argv) = Some u.

(** C11: When every engine call succeeds, screenshot.js exits 0 after
    calling launch (headless new, no sandbox), newPage, goto
    (networkidle2), screenshot (path output argv, fullPage) and close,
    in that order. *)
Theorem screenshot_success :
  be_launch launch_opts b0 = (inr br, b1) ->
  be_newPage br b1 = (inr pg, b2) ->
  be_goto pg u goto_opts b2 = (inr tt, b3) ->
  be_screenshot pg (screenshot_opts (output argv)) b3 = (inr tt, b4) ->
  be_close br b4 = (inr tt, b5) ->
  run mode argv b0 =
    (0%Z, Proc (Session b5 [Launch launch_opts; NewPage br; Goto pg u goto_opts;
                            Screenshot pg (screenshot_opts (output argv)); Close br]) []).
Proof. intros. unfold run, main, usage_exit. rewrite Hurl. run_api. reflexivity. Qed.

(** C22: When launch rejects in screenshot.js, no further call is made
    and the process ends as an unhandled rejection. *)
Theorem screenshot_launch_rejects e :
  be_launch launch_opts b0 = (inl e, b1) ->
  run mode argv b0 =
    unhandled_rejection mode e (Proc (Session b1 [Launch launch_opts]) []).
Proof. intros. unfold run, main, usage_exit. rewrite Hurl. run_api. reflexivity. Qed.


End Runs.

(** C27: The output path is never empty: the default covers a missing or
    empty [process.argv[3]]. *)
Theorem screenshot_output_nonempty argv : output argv <> "".
Proof. unfold output. apply js_or_nonempty. discriminate. Qed.

Definition example_argv : list string :=
  ["node"; "screenshot.js"; "https://example.com"; "out.png"].

Lemma screenshot_usage_witness :
  run UR_throw ["node"; "screenshot.js"] (example_mock None) =
    (1%Z, Proc (Session (example_mock None) []) [usage]).
Proof. apply screenshot_usage. reflexivity. Defined.

Lemma screenshot_success_witness :
  exists m5, run UR_throw example_argv (example_mock None) =
    (0%Z, Proc (Session m5 [Launch launch_opts; NewPage 0; Goto 1 "https://example.com" goto_opts;
                             Screenshot 1 (screenshot_opts "out.png"); Close 0]) []).
Proof.
  eexists. eapply (screenshot_success UR_throw example_argv (example_mock None)
                     "https://example.com" 0 1); reflexivity.
Defined.


Lemma screenshot_launch_rejects_witness :
  run UR_throw example_argv (example_mock (Some SLaunch)) =
    unhandled_rejection UR_throw err_launch
      (Proc (Session (example_mock (Some SLaunch)) [Launch launch_opts]) []).
Proof. eapply screenshot_launch_rejects; reflexivity. Defined.


(** C5: Every run, whatever the engine answers: [browser.close()] is called
    at most once, and only as the last of the five calls, after a
    screenshot that succeeded. *)
Theorem screenshot_close_only_after_capture {B} `{Backend B} mode argv (b0 : B) br :
  Close br ∈ calls (env (snd (run mode argv b0))) ->
  exists pg u, calls (env (snd (run mode argv b0))) =
    [Launch launch_opts; NewPage br; Goto pg u goto_opts;
     Screenshot pg (screenshot_opts (output argv)); Close br].
Proof.
  unfold run, main, usage_exit. destruct (truthy_value (url argv)) as [u|]; case_api;
    try destruct mode; cbn; intros Hin; repeat rewrite elem_of_cons in Hin;
    try rewrite elem_of_nil in Hin; naive_solver.
Qed.

Lemma screenshot_close_only_after_capture_witness :
  exists pg u, calls (env (snd (run UR_throw example_argv (example_mock None)))) =
    [Launch launch_opts; NewPage 0; Goto pg u goto_opts;
     Screenshot pg (screenshot_opts (output example_argv)); Close 0].
Proof. apply screenshot_close_only_after_capture. by_compute. Defined.

(** C9: The URL screenshot.js navigates to is [process.argv[2]] itself,
    narrowed by [if (!url)] to a non-empty string, for every engine. *)
Theorem screenshot_goto_url_narrowed {B} `{Backend B} mode argv (b0 : B) pg u o :
  Goto pg u o ∈ calls (env (run mode argv b0).2) -> argv !! 2 = Some u /\ u <> "".
Proof.
  unfold run, main, usage_exit. destruct (truthy_value (url argv)) as [s|] eqn:Hu;
    [apply truthy_value_Some in Hu; unfold url in Hu|];
    case_api; try destruct mode; cbn; intros Hin;
    repeat rewrite elem_of_cons in Hin; try rewrite elem_of_nil in Hin; naive_solver.
Qed.

Lemma screenshot_goto_url_narrowed_witness :
  example_argv !! 2 = Some "https://example.com" /\ "https://example.com" <> "".
Proof.
  apply (screenshot_goto_url_narrowed UR_throw example_argv (example_mock None) 1 _ goto_opts).
  by_compute.
Defined.
End ScreenshotRuns.
