(* ===== verification/PuppeteerScreenshot.v ===== *)
(** * src/example-scripts/webscrape/puppeteer_screenshot.js

    The script takes the URL and the output path from
    [process.argv.slice(2)], both required; it launches a browser with the
    library's defaults, then runs newPage/goto/screenshot inside
    [try { ... } catch (err) { console.error(err.toString());
    process.exit(1); } finally { await browser.close(); }].  Because
    [process.exit] ends the process on the spot, the [finally] block never
    runs after a failure: the browser is closed only when the three calls
    succeeded.  Module [PuppeteerScreenshot] holds the model; module
    [PuppeteerScreenshotRuns] its behaviour on every branch, for every
    engine. *)

From stdpp Require Import base list strings.
From Stdlib Require Import ZArith.
From S2P Require Import Prelude Node Puppeteer MockBackend.

Local Open Scope string_scope.

Local Open Scope node_scope.
Local Open Scope js_scope.

Module PuppeteerScreenshot.

(** [const [url, output] = process.argv.slice(2);] *)
Definition url (argv : list string) : jsstr := drop 2 argv !! 0.
Definition output (argv : list string) : jsstr := drop 2 argv !! 1.

Definition usage : string := "Usage: node puppeteer_screenshot.js <url> <output>".

(** [puppeteer.launch()] *)
Definition launch_opts : launch_options := default_launch_options.

(** [{ waitUntil: 'networkidle2' }] *)
Definition goto_opts : goto_options := GotoOptions (Some WU_networkidle2) None.

(** [{ path: output, fullPage: true }] *)
Definition screenshot_opts (out : string) : screenshot_options :=
  ScreenshotOptions (Some out) (Some true).

Section Script.
Context {B : Type} `{Backend B}.

(** The [try] block. *)
Definition capture (browser : browser) (u out : string) : node (session B) unit :=
  page <- browser_newPage browser ;;
  page_goto page u goto_opts ;;
  page_screenshot page (screenshot_opts out).

(** The [catch (err)] block. *)
Definition on_error (err : js_error) : node (session B) unit :=
  console_error (error_to_string err) ;;
  process_exit 1.

(** [if (!url || !output) { console.error(usage); process.exit(1); }]:
    the block the guard runs. *)
Definition usage_exit : node (session B) unit :=
  console_error usage ;;
  process_exit 1.

(** The [finally] block. *)
Definition cleanup (browser : browser) : node (session B) unit :=
  browser_close browser.

(** The body of the async arrow function.  After
    [if (!url || !output)] both are non-empty strings. *)
Definition main (argv : list string) : node (session B) unit :=
  match truthy_value (url argv), truthy_value (output argv) with
  | Some u, Some out =>
      browser <- puppeteer_launch launch_opts ;;
      try_catch_finally (capture browser u out) on_error (cleanup browser)
  | _, _ => usage_exit
  end.

Definition run (mode : unhandled_rejections) (argv : list string) (b : B)
    : Z * proc (session B) :=
  run_async_main mode (main argv) (Proc (Session b []) []).
End Script.

End PuppeteerScreenshot.

(** Unfold the whole script down to the library calls. *)
Ltac unfold_puppeteer_screenshot :=
  unfold PuppeteerScreenshot.run, PuppeteerScreenshot.main, PuppeteerScreenshot.usage_exit, PuppeteerScreenshot.capture, PuppeteerScreenshot.on_error, PuppeteerScreenshot.cleanup.

(** ** Behaviour of the script on every branch, for every engine *)
Module PuppeteerScreenshotRuns.
Import PuppeteerScreenshot.

Section Runs.
Context {B : Type} `{Backend B}.

(** The [try] block never calls [browser.close()]. *)
Lemma capture_close_count br u out (p : proc (session B)) :
  close_count (calls (env (snd (capture br u out p)))) = close_count (calls (env p)).
Proof.
  destruct p as [[b cs] err]. unfold capture. case_api;
    autorewrite with js_rw; cbn [is_close]; lia.
Qed.

Variables (mode : unhandled_rejections) (argv : list string) (b0 : B).

(** C12: When the URL or the output argument is missing or empty,
    puppeteer_screenshot.js prints its usage line, exits 1 and makes no
    call to the browser library. *)
Theorem puppeteer_screenshot_usage :
  truthy_value (url argv) = None \/ truthy_value (output argv) = None ->
  run mode argv b0 = (1%Z, Proc (Session b0 []) [usage]).
Proof.
  intros Hu. unfold run, main, usage_exit.
  destruct Hu as [-> | ->]; [|destruct (truthy_value (url argv))]; run_api; reflexivity.
Qed.

Variables (u out : string) (br : browser) (pg : page) (b1 b2 b3 b4 b5 : B).
Hypothesis Hurl : truthy_value (url argv) = Some u.
Hypothesis Hout : truthy_value (output argv) = Some out.

(** C6: When every engine call succeeds, puppeteer_screenshot.js exits 0
    with an empty error stream after calling launch (default options),
    newPage, goto (networkidle2), screenshot (path output, fullPage) and
    close, in that order. *)
Theorem puppeteer_screenshot_success :
  be_launch launch_opts b0 = (inr br, b1) ->
  be_newPage br b1 = (inr pg, b2) ->
  be_goto pg u goto_opts b2 = (inr tt, b3) ->
  be_screenshot pg (screenshot_opts out) b3 = (inr tt, b4) ->
  be_close br b4 = (inr tt, b5) ->
  run mode argv b0 =
    (0%Z, Proc (Session b5 [Launch launch_opts; NewPage br; Goto pg u goto_opts;
                            Screenshot pg (screenshot_opts out); Close br]) []).
Proof. intros. unfold run, main, usage_exit, capture, cleanup. rewrite Hurl, Hout. run_api. reflexivity. Qed.

(** C23: When launch rejects in puppeteer_screenshot.js (it is outside
    the try), the catch block does not run: no further call, the process
    ends as an unhandled rejection. *)
Theorem puppeteer_screenshot_launch_rejects e :
  be_launch launch_opts b0 = (inl e, b1) ->
  run mode argv b0 =
    unhandled_rejection mode e (Proc (Session b1 [Launch launch_opts]) []).
Proof. intros. unfold run, main, usage_exit. rewrite Hurl, Hout. run_api. reflexivity. Qed.

(** C1: A rejection inside the [try] block: the [catch] prints the error
    and calls [process.exit(1)], so the [finally] block, and with it
    [browser.close()], never runs; the exit code is 1 in every
    unhandled-rejection mode. *)
Theorem puppeteer_screenshot_catch_skips_close e p1 :
  be_launch launch_opts b0 = (inr br, b1) ->
  capture br u out (Proc (Session b1 [Launch launch_opts]) []) = (Thrown e, p1) ->
  run mode argv b0 = (1%Z, Proc (env p1) (stderr p1 ++ [error_to_string e])) /\
  close_count (calls (env p1)) = 0.
Proof.
  intros Hl Hc. split.
  - unfold run, main, usage_exit, on_error, cleanup. rewrite Hurl, Hout. api_red. rewrite Hl. api_step.
    fold (capture (B:=B) br u out). rewrite Hc. destruct p1. reflexivity.
  - pose proof (capture_close_count br u out (Proc (Session b1 [Launch launch_opts]) []))
      as Hcc. rewrite Hc in Hcc. exact Hcc.
Qed.

(** C24: When only browser.close() rejects in puppeteer_screenshot.js,
    the rejection from the finally block is unhandled after all five
    calls. *)
Theorem puppeteer_screenshot_close_rejects e :
  be_launch launch_opts b0 = (inr br, b1) ->
  be_newPage br b1 = (inr pg, b2) ->
  be_goto pg u goto_opts b2 = (inr tt, b3) ->
  be_screenshot pg (screenshot_opts out) b3 = (inr tt, b4) ->
  be_close br b4 = (inl e, b5) ->
  run mode argv b0 =
    unhandled_rejection mode e
      (Proc (Session b5 [Launch launch_opts; NewPage br; Goto pg u goto_opts;
                         Screenshot pg (screenshot_opts out); Close br]) []).
Proof. intros. unfold run, main, usage_exit, capture, cleanup. rewrite Hurl, Hout. run_api. reflexivity. Qed.

End Runs.

(** C4: Every run, whatever the engine answers: [browser.close()] is called
    at most once, and only as the last of the five calls, after a
    screenshot that succeeded. *)
Theorem puppeteer_screenshot_close_only_after_capture {B} `{Backend B} mode argv (b0 : B) br :
  Close br ∈ calls (env (snd (run mode argv b0))) ->
  exists pg u out, calls (env (snd (run mode argv b0))) =
    [Launch launch_opts; NewPage br; Goto pg u goto_opts;
     Screenshot pg (screenshot_opts out); Close br].
Proof.
  unfold run, main, usage_exit, capture, cleanup, on_error.
  destruct (truthy_value (url argv)) as [u|], (truthy_value (output argv)) as [out|];
    case_api; try destruct mode; cbn [fst snd env calls]; intros Hin; repeat rewrite elem_of_cons in Hin;
    try rewrite elem_of_nil in Hin; naive_solver.
Qed.

(** ** Witnesses on the mock engine *)

Definition example_argv : list string :=
  ["node"; "puppeteer_screenshot.js"; "https://example.com"; "out.png"].
Definition bad_argv : list string :=
  ["node"; "puppeteer_screenshot.js"; "https://bad.invalid"; "out.png"].

Lemma puppeteer_screenshot_usage_witness :
  run UR_throw ["node"; "puppeteer_screenshot.js"; "https://example.com"] (example_mock None) =
    (1%Z, Proc (Session (example_mock None) []) [usage]).
Proof. apply puppeteer_screenshot_usage. right. reflexivity. Defined.

Lemma puppeteer_screenshot_success_witness :
  exists m5, run UR_throw example_argv (example_mock None) =
    (0%Z, Proc (Session m5 [Launch launch_opts; NewPage 0; Goto 1 "https://example.com" goto_opts;
                             Screenshot 1 (screenshot_opts "out.png"); Close 0]) []).
Proof. eexists. eapply puppeteer_screenshot_success; reflexivity. Defined.

Lemma puppeteer_screenshot_launch_rejects_witness :
  run UR_throw example_argv (example_mock (Some SLaunch)) =
    unhandled_rejection UR_throw err_launch
      (Proc (Session (example_mock (Some SLaunch)) [Launch launch_opts]) []).
Proof. eapply puppeteer_screenshot_launch_rejects; reflexivity. Defined.

Lemma puppeteer_screenshot_catch_skips_close_witness :
  exists p1, run UR_throw bad_argv (example_mock None) =
    (1%Z, Proc (env p1) (stderr p1 ++ [error_to_string (err_unresolved "https://bad.invalid")])) /\
    close_count (calls (env p1)) = 0.
Proof. eexists. eapply puppeteer_screenshot_catch_skips_close; reflexivity. Defined.

Lemma puppeteer_screenshot_close_rejects_witness :
  exists m5, run UR_throw example_argv (example_mock (Some SClose)) =
    unhandled_rejection UR_throw err_closed
      (Proc (Session m5 [Launch launch_opts; NewPage 0; Goto 1 "https://example.com" goto_opts;
                         Screenshot 1 (screenshot_opts "out.png"); Close 0]) []).
Proof. eexists. eapply puppeteer_screenshot_close_rejects; reflexivity. Defined.

Lemma puppeteer_screenshot_close_only_after_capture_witness :
  exists pg u out, calls (env (snd (run UR_throw example_argv (example_mock None)))) =
    [Launch launch_opts; NewPage 0; Goto pg u goto_opts;
     Screenshot pg (screenshot_opts out); Close 0].
Proof. apply puppeteer_screenshot_close_only_after_capture. by_compute. Defined.
(** C10: Whatever the engine answers, under a rejection mode that ends
    the process on an unhandled rejection (the default from Node 15),
    puppeteer_screenshot.js exits with code 0 or 1 and issues at most the
    five calls. *)
Theorem puppeteer_screenshot_exit_bounds {B} `{Backend B} mode argv (b0 : B) :
  fatal mode = true ->
  ((run mode argv b0).1 = 0%Z \/ (run mode argv b0).1 = 1%Z) /\
  length (calls (env (run mode argv b0).2)) <= 5.
Proof.
  intros Hm. unfold run, main, usage_exit, capture, cleanup, on_error.
  destruct (truthy_value (url argv)), (truthy_value (output argv)); case_api; destruct mode;
    try discriminate Hm; cbn; auto with lia.
Qed.

Lemma puppeteer_screenshot_exit_bounds_witness :
  ((run UR_throw bad_argv (example_mock None)).1 = 0%Z \/ (run UR_throw bad_argv (example_mock None)).1 = 1%Z) /\
  length (calls (env (run UR_throw bad_argv (example_mock None)).2)) <= 5.
Proof. apply puppeteer_screenshot_exit_bounds. reflexivity. Defined.

(** C8: The URL and the path puppeteer_screenshot.js hands to goto and
    screenshot are the two elements of [process.argv.slice(2)] themselves,
    narrowed by [if (!url || !output)] to non-empty strings. *)
Theorem puppeteer_screenshot_args_narrowed {B} `{Backend B} mode argv (b0 : B) pg u o so :
  (Goto pg u o ∈ calls (env (run mode argv b0).2) -> drop 2 argv !! 0 = Some u /\ u <> "") /\
  (Screenshot pg so ∈ calls (env (run mode argv b0).2) ->
   exists out, path so = Some out /\ drop 2 argv !! 1 = Some out /\ out <> "").
Proof.
  unfold run, main, usage_exit, capture, cleanup, on_error.
  destruct (truthy_value (url argv)) as [s|] eqn:Hu, (truthy_value (output argv)) as [t|] eqn:Ho;
    try apply truthy_value_Some in Hu; try apply truthy_value_Some in Ho; unfold url, output in *;
    case_api; try destruct mode; cbn; split; intros Hin;
    repeat rewrite elem_of_cons in Hin; try rewrite elem_of_nil in Hin; naive_solver.
Qed.

Lemma puppeteer_screenshot_args_narrowed_witness :
  drop 2 example_argv !! 0 = Some "https://example.com" /\ "https://example.com" <> "".
Proof.
  apply (puppeteer_screenshot_args_narrowed UR_throw example_argv (example_mock None) 1 _ goto_opts
           (screenshot_opts "out.png")).
  by_compute.
Defined.
End PuppeteerScreenshotRuns.

