(* ===== verification/Navigation.v ===== *)
(** * What the scripts' [page.goto] waits for

    Both scripts navigate with [{ waitUntil: 'networkidle2' }] and no
    [timeout], so the navigation settles when a 500 ms window with at most
    two connections in flight has passed, or rejects with Puppeteer's
    TimeoutError after 30000 ms.  This file states, for the option objects
    of the two scripts, when their navigation resolves, and that a page
    whose traffic ends in time is always reached. *)

From stdpp Require Import base list strings.
From Stdlib Require Import Lia.
From S2P Require Import Prelude Puppeteer NetworkIdle MockBackend Screenshot PuppeteerScreenshot.

Local Open Scope string_scope.

(** Expose the navigation options the two scripts pass. *)
Ltac goto_opts_red := unfold PuppeteerScreenshot.goto_opts, Screenshot.goto_opts.

(** C7: The navigation of puppeteer_screenshot.js resolves at [t] exactly
    when [t] is before the 30 s timeout and is the end of the first 500 ms
    window of the page's traffic with at most two connections in flight:
    the one-pass scan of the lifecycle watcher computes the declarative
    wait condition. *)
Theorem puppeteer_screenshot_navigation_resolves pl t :
  navigation_wait PuppeteerScreenshot.goto_opts pl = inr t <->
  t < default_navigation_timeout /\
  window_quiet 2 networkidle_quiet_ms (traffic pl) t = true /\
  (forall t', t' < t -> window_quiet 2 networkidle_quiet_ms (traffic pl) t' = false).
Proof.
  goto_opts_red. rewrite navigation_wait_networkidle2_inr, idle_time_spec. tauto.
Qed.

(** C18: A page whose traffic ends at least 500 ms before the timeout is
    always navigated to by puppeteer_screenshot.js: [page.goto] resolves,
    within 500 ms of the end of the traffic. *)
Theorem puppeteer_screenshot_navigation_live pl :
  length (inflight pl) + networkidle_quiet_ms <= default_navigation_timeout ->
  exists t, navigation_wait PuppeteerScreenshot.goto_opts pl = inr t /\
            t < length (inflight pl) + networkidle_quiet_ms.
Proof.
  intros Hl. destruct (idle_time_fires 2 pl) as [_ Hb].
  exists (idle_time 2 pl). goto_opts_red. rewrite navigation_wait_networkidle2_inr. auto with lia.
Qed.

(** ** Witnesses on the fixtures of the mock engine *)

Lemma puppeteer_screenshot_navigation_resolves_witness :
  navigation_wait PuppeteerScreenshot.goto_opts example_load = inr 799 /\
  window_quiet 2 networkidle_quiet_ms (traffic example_load) 799 = true.
Proof.
  assert (H : navigation_wait PuppeteerScreenshot.goto_opts example_load = inr 799) by by_compute.
  split; [exact H|]. apply (puppeteer_screenshot_navigation_resolves example_load 799), H.
Defined.

Lemma puppeteer_screenshot_navigation_live_witness :
  exists t, navigation_wait PuppeteerScreenshot.goto_opts example_load = inr t /\
            t < length (inflight example_load) + networkidle_quiet_ms.
Proof. apply puppeteer_screenshot_navigation_live. apply Nat.leb_le. vm_compute. reflexivity. Defined.

