(* ===== verification/Config.v ===== *)
(** * What the two scripts' launch options require of the host

    screenshot.js launches with [headless: 'new'] and [--no-sandbox];
    puppeteer_screenshot.js with Puppeteer's defaults (headless, sandbox
    on).  Through [launch_refusal] of Launch.v this decides the hosts each
    script starts on: the claim below, and the helper lemmas the mock
    runs use. *)

From stdpp Require Import base list strings.
From S2P Require Import Prelude Puppeteer Launch Screenshot PuppeteerScreenshot.

Local Open Scope string_scope.

(** C17: What each script's launch requires of the host: screenshot.js
    starts on every host, root or not, display or not;
    puppeteer_screenshot.js starts exactly on hosts where it does not
    run as root, and as root rejects with Chrome's sandbox error. *)
Theorem launch_host_requirements h :
  launch_refusal Screenshot.launch_opts h = None /\
  launch_refusal PuppeteerScreenshot.launch_opts h =
    if as_root h then Some err_root_sandbox else None.
Proof.
  split; [apply launch_refusal_unsandboxed_headless | apply launch_refusal_sandboxed_headless];
    reflexivity.
Qed.

(** screenshot.js: headless, no sandbox. *)
Lemma screenshot_launch_accepted h : launch_refusal Screenshot.launch_opts h = None.
Proof. apply launch_refusal_unsandboxed_headless; reflexivity. Qed.

(** puppeteer_screenshot.js: headless, with the sandbox. *)
Lemma puppeteer_screenshot_launch_check h :
  launch_refusal PuppeteerScreenshot.launch_opts h =
  if as_root h then Some err_root_sandbox else None.
Proof. apply launch_refusal_sandboxed_headless; reflexivity. Qed.

Lemma puppeteer_screenshot_launch_accepted h :
  as_root h = false -> launch_refusal PuppeteerScreenshot.launch_opts h = None.
Proof. intros Hr. rewrite puppeteer_screenshot_launch_check, Hr. reflexivity. Qed.

