(* ===== verification/Refinement.v ===== *)
(** * The two scripts against the capture contract

    The observation of a run is what the spec's tests see: the stages the
    script called, in order, and the exit code.  [engine_fault] reads off
    the faults an engine injects when it is driven through the capture
    sequence; under a Node runtime where an unhandled rejection ends the
    process with code 1 ([fatal] of Node.v), each script behaves as the contract
    says exactly when newPage, goto and screenshot all succeed.  When one
    of them fails, neither script releases the browser: screenshot.js has
    no [finally], and puppeteer_screenshot.js leaves through
    [process.exit(1)] before its [finally] runs.  The last group reads the
    command line: both scripts get back the URL and output path a
    command line was built from. *)

From stdpp Require Import base list strings sets.
From Stdlib Require Import ZArith.
From S2P Require Import Prelude Node Puppeteer CaptureSpec MockBackend Screenshot PuppeteerScreenshot.

Local Open Scope list_scope.

(** The stages called and the exit code of a finished run. *)
Definition observe {B} (r : Z * proc (session B)) : list stage * Z :=
  (stage_of <$> calls (env r.2), r.1).

(** The faults of the contract's capture sequence are all outside the
    [try] block of puppeteer_screenshot.js: launch, or release. *)
Definition try_block_ok (f : fault) : bool :=
  match first_fail f with
  | Some SNewPage | Some SGoto | Some SScreenshot => false
  | _ => true
  end.

Section Engine.
Context {B : Type} `{Backend B}.

(** The faults the engine injects when the contract's sequence is run
    with these options: the first of the four stages that rejects, and
    whether the release that follows rejects. *)
Definition engine_fault (lo : launch_options) (go : goto_options)
    (so : screenshot_options) (u : string) (b0 : B) : fault :=
  match be_launch lo b0 with
  | (inl _, _) => Fault (Some SLaunch) false
  | (inr br, b1) =>
      let rel b := match be_close br b with (inl _, _) => true | (inr _, _) => false end in
      match be_newPage br b1 with
      | (inl _, b2) => Fault (Some SNewPage) (rel b2)
      | (inr pg, b2) =>
          match be_goto pg u go b2 with
          | (inl _, b3) => Fault (Some SGoto) (rel b3)
          | (inr _, b3) =>
              match be_screenshot pg so b3 with
              | (inl _, b4) => Fault (Some SScreenshot) (rel b4)
              | (inr _, b4) => Fault None (rel b4)
              end
          end
      end
  end.
End Engine.

(** Decide a contract query on a concrete observation. *)
Ltac decide_contract :=
  rewrite contract_allows_elem, <- (bool_decide_spec (_ ∈ _)); vm_compute;
  split; intros; first [done | discriminate | contradiction].

Module SR := ScreenshotRuns.
Module PSR := PuppeteerScreenshotRuns.

(** C2: puppeteer_screenshot.js, valid arguments, a Node runtime where a
    rejection is fatal: the run is one the contract allows exactly when
    the calls of its [try] block all succeed. *)
Theorem puppeteer_screenshot_contract {B} `{Backend B} mode argv u out (b0 : B) :
  fatal mode = true ->
  truthy_value (PuppeteerScreenshot.url argv) = Some u -> truthy_value (PuppeteerScreenshot.output argv) = Some out ->
  (contract_allows true (observe (PuppeteerScreenshot.run mode argv b0)).1 (observe (PuppeteerScreenshot.run mode argv b0)).2 <->
   try_block_ok (engine_fault PuppeteerScreenshot.launch_opts PuppeteerScreenshot.goto_opts (PuppeteerScreenshot.screenshot_opts out) u b0) = true).
Proof.
  intros Hm Hu Ho. unfold_puppeteer_screenshot; unfold observe, engine_fault.
  rewrite Hu, Ho. case_api; destruct mode; try discriminate; decide_contract.
Qed.

(** C3: screenshot.js under the same conditions: the same characterisation,
    although it has no [try] at all. *)
Theorem screenshot_contract {B} `{Backend B} mode argv u (b0 : B) :
  fatal mode = true -> truthy_value (Screenshot.url argv) = Some u ->
  (contract_allows true (observe (Screenshot.run mode argv b0)).1 (observe (Screenshot.run mode argv b0)).2 <->
   try_block_ok
     (engine_fault Screenshot.launch_opts Screenshot.goto_opts (Screenshot.screenshot_opts (Screenshot.output argv)) u b0) = true).
Proof.
  intros Hm Hu. unfold_screenshot; unfold observe, engine_fault.
  rewrite Hu. case_api; destruct mode; try discriminate; decide_contract.
Qed.

(** C14: When the engine's faults are outside the [try] block, the run of
    puppeteer_screenshot.js is the contract's run for those faults. *)
Theorem puppeteer_screenshot_refines {B} `{Backend B} mode argv u out (b0 : B) :
  fatal mode = true ->
  truthy_value (PuppeteerScreenshot.url argv) = Some u -> truthy_value (PuppeteerScreenshot.output argv) = Some out ->
  let f := engine_fault PuppeteerScreenshot.launch_opts PuppeteerScreenshot.goto_opts (PuppeteerScreenshot.screenshot_opts out) u b0 in
  try_block_ok f = true -> observe (PuppeteerScreenshot.run mode argv b0) = contract_run true f.
Proof.
  intros Hm Hu Ho. unfold_puppeteer_screenshot; unfold observe, engine_fault.
  rewrite Hu, Ho. case_api; destruct mode; try discriminate; reflexivity.
Qed.


(** [process.argv.slice(2)] destructured reads the elements that
    [process.argv[2]] and [process.argv[3]] index. *)
Lemma slice_reads_index argv :
  PuppeteerScreenshot.url argv = Screenshot.url argv /\ PuppeteerScreenshot.output argv = argv !! 3.
Proof. unfold PuppeteerScreenshot.url, PuppeteerScreenshot.output, Screenshot.url. rewrite !lookup_drop. done. Qed.

(** C19: The command line [node <script> <url> <output> ...] gives back,
    in both scripts, the URL and the output path it was built from,
    whatever arguments follow them; screenshot.js given the URL alone
    writes to [screenshot.png]. *)
Theorem cli_args_roundtrip u o extra :
  u <> "" -> o <> "" ->
  truthy_value (PuppeteerScreenshot.url (process_argv "puppeteer_screenshot.js" (u :: o :: extra))) = Some u /\
  truthy_value (PuppeteerScreenshot.output (process_argv "puppeteer_screenshot.js" (u :: o :: extra))) = Some o /\
  truthy_value (Screenshot.url (process_argv "screenshot.js" (u :: o :: extra))) = Some u /\
  Screenshot.output (process_argv "screenshot.js" (u :: o :: extra)) = o /\
  Screenshot.output (process_argv "screenshot.js" [u]) = "screenshot.png".
Proof.
  intros Hu Ho. rewrite !(proj1 (slice_reads_index _)), (proj2 (slice_reads_index _)).
  unfold Screenshot.url, Screenshot.output, process_argv. cbn [lookup list_lookup].
  rewrite !truthy_value_nonempty by assumption.
  split; [reflexivity|]. split; [reflexivity|]. split; [reflexivity|].
  split; [apply js_or_truthy, truthy_value_nonempty, Ho | reflexivity].
Qed.

Lemma cli_args_roundtrip_witness :
  truthy_value (PuppeteerScreenshot.url (process_argv "puppeteer_screenshot.js" ["https://example.com"; "out.png"; "--extra"])) = Some "https://example.com" /\
  truthy_value (PuppeteerScreenshot.output (process_argv "puppeteer_screenshot.js" ["https://example.com"; "out.png"; "--extra"])) = Some "out.png" /\
  truthy_value (Screenshot.url (process_argv "screenshot.js" ["https://example.com"; "out.png"; "--extra"])) = Some "https://example.com" /\
  Screenshot.output (process_argv "screenshot.js" ["https://example.com"; "out.png"; "--extra"]) = "out.png" /\
  Screenshot.output (process_argv "screenshot.js" ["https://example.com"]) = "screenshot.png".
Proof. apply (cli_args_roundtrip "https://example.com" "out.png" ["--extra"]); discriminate. Defined.

(** ** Witnesses on the mock engine *)

Lemma puppeteer_screenshot_contract_witness :
  ~ contract_allows true (observe (PuppeteerScreenshot.run UR_throw PSR.bad_argv (example_mock None))).1
                         (observe (PuppeteerScreenshot.run UR_throw PSR.bad_argv (example_mock None))).2.
Proof.
  rewrite (puppeteer_screenshot_contract UR_throw PSR.bad_argv "https://bad.invalid" "out.png");
    [vm_compute; discriminate | reflexivity ..].
Defined.

Lemma screenshot_contract_witness :
  contract_allows true (observe (Screenshot.run UR_throw SR.example_argv (example_mock None))).1
                       (observe (Screenshot.run UR_throw SR.example_argv (example_mock None))).2.
Proof.
  rewrite (screenshot_contract UR_throw SR.example_argv "https://example.com");
    reflexivity.
Defined.

Lemma puppeteer_screenshot_refines_witness :
  observe (PuppeteerScreenshot.run UR_throw PSR.example_argv (example_mock (Some SClose))) =
    contract_run true (Fault None true).
Proof.
  rewrite (puppeteer_screenshot_refines UR_throw PSR.example_argv "https://example.com" "out.png"
             (example_mock (Some SClose))); reflexivity.
Defined.

