(* ===== verification/Scenarios.v ===== *)
(** * Repeated runs on the mock engine

    Section 8 of the spec asks that running the command twice with the
    same arguments overwrites the output file.  For every mock engine
    that injects no fault, does not refuse the launch, and serves the URL
    with a page that goes idle before the navigation timeout, a run of
    either script exits 0 and sets the output file to the full-page image
    of the page, whatever the file held before. *)

From stdpp Require Import base list strings gmap.
From Stdlib Require Import ZArith.
From S2P Require Import Prelude Node Puppeteer NetworkIdle Launch CaptureSpec MockBackend Screenshot PuppeteerScreenshot Refinement Config.

Local Open Scope string_scope.

Module PSR := PuppeteerScreenshotRuns.
Module SR := ScreenshotRuns.

(** The final engine state, exit code and error stream of a run. *)
Definition final_mock (r : Z * proc (session mock)) : mock := backend (env r.2).


(** Run a script on a mock with no injected fault: every test of the
    engine is decided from the inserts the run made. *)
Ltac mock_run Hf Hs Hn Hl :=
  api_red; cbn [be_launch be_newPage be_goto be_screenshot be_close mock_backend];
  unfold mock_launch, mock_newPage, mock_goto, mock_screenshot, mock_close, injected, live_page;
  cbn [fail_stage site host browsers pages files next_id]; rewrite !Hf, Hl;
  repeat (cbn; first [case_bool_decide; [try congruence | try (exfalso; simplify_map_eq; congruence)]
                     | rewrite lookup_insert_eq | rewrite Hs
                     | rewrite navigation_wait_networkidle2, (proj2 (Nat.ltb_lt _ _) Hn)
                     | progress simplify_map_eq]);
  auto.

Section Repeated.
Variables (mode : unhandled_rejections) (argv : list string) (u : string) (sp : site_page) (m : mock).
Hypothesis Hf : fail_stage m = None.
Hypothesis Hs : site m u = Some sp.
Hypothesis Hn : idle_time 2 (loading sp) < default_navigation_timeout.
Hypothesis Hroot : as_root (host m) = false.

(** C25: puppeteer_screenshot.js on an engine that injects no fault, does
    not run as root, and resolves the URL to a page whose network goes idle before the
    navigation timeout: exit 0, and the output file holds the full-page
    image of the site, whatever it held before; the engine keeps its
    configuration. *)
Theorem puppeteer_screenshot_overwrites out :
  truthy_value (PuppeteerScreenshot.url argv) = Some u -> truthy_value (PuppeteerScreenshot.output argv) = Some out ->
  (PuppeteerScreenshot.run mode argv m).1 = 0%Z /\
  files (final_mock (PuppeteerScreenshot.run mode argv m)) = <[out := render (content sp) true]> (files m) /\
  fail_stage (final_mock (PuppeteerScreenshot.run mode argv m)) = fail_stage m /\
  site (final_mock (PuppeteerScreenshot.run mode argv m)) = site m /\
  host (final_mock (PuppeteerScreenshot.run mode argv m)) = host m.
Proof.
  intros Hu Ho. unfold final_mock; unfold_puppeteer_screenshot.
  rewrite Hu, Ho. pose proof (puppeteer_screenshot_launch_accepted _ Hroot) as Hl. mock_run Hf Hs Hn Hl.
Qed.

(** C26: The same for screenshot.js, whose output path defaults to
    [screenshot.png]. *)
Theorem screenshot_overwrites :
  truthy_value (Screenshot.url argv) = Some u ->
  (Screenshot.run mode argv m).1 = 0%Z /\
  files (final_mock (Screenshot.run mode argv m)) = <[Screenshot.output argv := render (content sp) true]> (files m) /\
  fail_stage (final_mock (Screenshot.run mode argv m)) = fail_stage m /\
  site (final_mock (Screenshot.run mode argv m)) = site m /\
  host (final_mock (Screenshot.run mode argv m)) = host m.
Proof. intros Hu. unfold final_mock; unfold_screenshot. rewrite Hu. pose proof (screenshot_launch_accepted (host m)) as Hl. mock_run Hf Hs Hn Hl. Qed.
End Repeated.

Lemma puppeteer_screenshot_overwrites_witness :
  let m := example_mock None in
  (PuppeteerScreenshot.run UR_throw PSR.example_argv m).1 = 0%Z /\
  files (final_mock (PuppeteerScreenshot.run UR_throw PSR.example_argv m)) =
    <["out.png" := render "Example Domain" true]> (files m) /\
  fail_stage (final_mock (PuppeteerScreenshot.run UR_throw PSR.example_argv m)) = fail_stage m /\
  site (final_mock (PuppeteerScreenshot.run UR_throw PSR.example_argv m)) = site m /\
  host (final_mock (PuppeteerScreenshot.run UR_throw PSR.example_argv m)) = host m.
Proof.
  apply (puppeteer_screenshot_overwrites UR_throw PSR.example_argv "https://example.com"
           (SitePage "Example Domain" example_load));
    first [apply Nat.ltb_lt; vm_compute; reflexivity | reflexivity].
Defined.

Lemma screenshot_overwrites_witness :
  let m := example_mock None in
  (Screenshot.run UR_throw SR.example_argv m).1 = 0%Z /\
  files (final_mock (Screenshot.run UR_throw SR.example_argv m)) =
    <[Screenshot.output SR.example_argv := render "Example Domain" true]> (files m) /\
  fail_stage (final_mock (Screenshot.run UR_throw SR.example_argv m)) = fail_stage m /\
  site (final_mock (Screenshot.run UR_throw SR.example_argv m)) = site m /\
  host (final_mock (Screenshot.run UR_throw SR.example_argv m)) = host m.
Proof.
  apply (screenshot_overwrites UR_throw SR.example_argv "https://example.com"
           (SitePage "Example Domain" example_load));
    first [apply Nat.ltb_lt; vm_compute; reflexivity | reflexivity].
Defined.
