(* ===== verification/MockRuns.v ===== *)
(** * Whole runs of the scripts on the mock engine

    Theorems that hold for every state of the mock engine, proved by
    following each script through the engine's answers ([case_api]) and
    the mock's frame lemmas: under a rejection mode where an unhandled
    rejection ends the process with code 1, exit code 0 means the output
    file was written and the browser released once (section 8 of the
    spec); and on a root host puppeteer_screenshot.js cannot launch. *)

From stdpp Require Import base list strings gmap.
From Stdlib Require Import ZArith.
From S2P Require Import Prelude Node Puppeteer NetworkIdle Launch MockBackend Screenshot PuppeteerScreenshot Refinement Config Scenarios.

Local Open Scope string_scope.

Module PSR := PuppeteerScreenshotRuns.
Module SR := ScreenshotRuns.

(** ** Exit code 0 *)

(** The file a successful screenshot wrote survives the close after it. *)
Ltac written_file :=
  cbn [be_launch be_newPage be_goto be_screenshot be_close mock_backend] in *;
  unfold PuppeteerScreenshot.screenshot_opts, Screenshot.screenshot_opts in *;
  match goal with
  | H : mock_screenshot _ (ScreenshotOptions (Some ?f) _) _ = (inr _, ?y),
    H' : mock_close _ ?y = (_, ?z) |- _ =>
      destruct (mock_screenshot_writes _ _ _ _ _ _ H) as [img Himg];
      rewrite <- (mock_close_files _ _ _ _ H') in Himg
  end.

(** On the mock, a run that exits 0 under a fatal rejection mode wrote
    its output file and released the browser once. *)
Lemma puppeteer_screenshot_exit_zero mode argv (m : mock) :
  fatal mode = true -> (PuppeteerScreenshot.run mode argv m).1 = 0%Z ->
  exists out img, truthy_value (PuppeteerScreenshot.output argv) = Some out /\
    files (final_mock (PuppeteerScreenshot.run mode argv m)) !! out = Some img /\
    close_count (calls (env (PuppeteerScreenshot.run mode argv m).2)) = 1.
Proof.
  intros Hm. unfold final_mock; unfold_puppeteer_screenshot.
  destruct (truthy_value (PuppeteerScreenshot.url argv)),
    (truthy_value (PuppeteerScreenshot.output argv)) as [out|] eqn:Ho;
    case_api; destruct mode; try discriminate Hm; cbn; intros H0; try discriminate H0;
    written_file; exists out, img; auto.
Qed.

Lemma screenshot_exit_zero mode argv (m : mock) :
  fatal mode = true -> (Screenshot.run mode argv m).1 = 0%Z ->
  exists img, files (final_mock (Screenshot.run mode argv m)) !! Screenshot.output argv = Some img /\
    close_count (calls (env (Screenshot.run mode argv m).2)) = 1.
Proof.
  intros Hm. unfold final_mock; unfold_screenshot.
  destruct (truthy_value (Screenshot.url argv)); case_api; destruct mode; try discriminate Hm;
    cbn; intros H0; try discriminate H0; written_file; exists img; auto.
Qed.

(** C20: For every state of the mock engine and a fatal rejection mode,
    exit code 0 means what section 8 of the spec asks of a successful
    invocation: the output file exists at the output path, and
    [browser.close()] was called exactly once; for both scripts. *)
Theorem scripts_exit_zero_captured mode argv argv' (m : mock) :
  fatal mode = true ->
  ((PuppeteerScreenshot.run mode argv m).1 = 0%Z ->
   exists out img, truthy_value (PuppeteerScreenshot.output argv) = Some out /\
     files (final_mock (PuppeteerScreenshot.run mode argv m)) !! out = Some img /\
     close_count (calls (env (PuppeteerScreenshot.run mode argv m).2)) = 1) /\
  ((Screenshot.run mode argv' m).1 = 0%Z ->
   exists img, files (final_mock (Screenshot.run mode argv' m)) !! Screenshot.output argv' = Some img /\
     close_count (calls (env (Screenshot.run mode argv' m).2)) = 1).
Proof. intros Hm. split; [apply puppeteer_screenshot_exit_zero | apply screenshot_exit_zero]; exact Hm. Qed.

Lemma scripts_exit_zero_captured_witness :
  exists out img, truthy_value (PuppeteerScreenshot.output PSR.example_argv) = Some out /\
    files (final_mock (PuppeteerScreenshot.run UR_throw PSR.example_argv (example_mock None))) !! out = Some img /\
    close_count (calls (env (PuppeteerScreenshot.run UR_throw PSR.example_argv (example_mock None)).2)) = 1.
Proof. apply (scripts_exit_zero_captured UR_throw PSR.example_argv SR.example_argv); reflexivity. Defined.

(** ** Running as root *)

(** C16: On an engine that injects no fault but runs as root (a container
    by default), puppeteer_screenshot.js with valid arguments gets Chrome's
    sandbox error from [puppeteer.launch()]: the launch is outside the
    [try], so the script's catch never sees it and the process ends as an
    unhandled rejection after that single call; screenshot.js launches on
    the same engine. *)
Theorem puppeteer_screenshot_root_launch_rejected mode argv u out (m : mock) :
  fail_stage m = None -> as_root (host m) = true ->
  truthy_value (PuppeteerScreenshot.url argv) = Some u ->
  truthy_value (PuppeteerScreenshot.output argv) = Some out ->
  PuppeteerScreenshot.run mode argv m =
    unhandled_rejection mode err_root_sandbox
      (Proc (Session m [Launch PuppeteerScreenshot.launch_opts]) []) /\
  (be_launch Screenshot.launch_opts m).1 = inr (next_id m).
Proof.
  intros Hf Hr Hu Ho.
  assert (HL : be_launch PuppeteerScreenshot.launch_opts m = (inl err_root_sandbox, m)).
  { cbn. unfold mock_launch, injected. rewrite Hf, puppeteer_screenshot_launch_check, Hr. reflexivity. }
  split.
  - unfold_puppeteer_screenshot. rewrite Hu, Ho. run_api. reflexivity.
  - cbn. unfold mock_launch, injected. rewrite Hf, screenshot_launch_accepted. reflexivity.
Qed.

Lemma puppeteer_screenshot_root_launch_rejected_witness :
  PuppeteerScreenshot.run UR_throw PSR.example_argv (container_mock None) =
    unhandled_rejection UR_throw err_root_sandbox
      (Proc (Session (container_mock None) [Launch PuppeteerScreenshot.launch_opts]) []) /\
  (be_launch Screenshot.launch_opts (container_mock None)).1 = inr 0.
Proof.
  apply (puppeteer_screenshot_root_launch_rejected UR_throw PSR.example_argv
           "https://example.com" "out.png"); reflexivity.
Defined.

